(** * libsmc (smc.c / smc.h): key codec, two-phase SMC transactions, facade

    A shallow embedding of [vendor/github.com/shirou/gopsutil/host/include/smc.c].
    Integers are [Z] with the C wrap-around written out, byte buffers are
    [list Z], C strings are [string] read up to the first NUL, [double] is the
    binary64 of [PrimFloat], and the static connection together with the
    driver behind [IOConnectCallStructMethod] is threaded as an explicit
    world. *)

From Stdlib Require Import ZArith List String Ascii Bool Lia Floats Uint63.
Import ListNotations.
Open Scope Z_scope.

(* The decimal constants 1.8 and 273.15 denote their nearest binary64 value,
   as they do in C. *)
Set Warnings "-inexact-float".

(** ** C integer helpers *)

(** Conversion to [uint8_t]. *)
Definition u8 (z : Z) : Z := z mod 2 ^ 8.

(** Conversion to [uint32_t] / [unsigned int]. *)
Definition u32 (z : Z) : Z := z mod 2 ^ 32.

(** [a[i]] on a byte array. *)
Definition byte_at (a : list Z) (i : nat) : Z := nth i a 0.

(** [a[i] = v] on an array: the array keeps its size. *)
Fixpoint upd (a : list Z) (i : nat) (v : Z) : list Z :=
  match a, i with
  | [], _ => []
  | _ :: t, O => v :: t
  | h :: t, S j => h :: upd t j v
  end.

(** [memset(p, 0, n)] on an [n]-byte array. *)
Definition zeros (n : nat) : list Z := repeat 0 n.

(** ** C strings *)

(** A [char] read as an integer: [char] is signed on the Intel targets the
    file is written for. *)
Definition char_val (c : ascii) : Z :=
  let b := Z.of_N (N_of_ascii c) in
  if b <? 128 then b else b - 256.

(** [strlen]: the number of characters before the first NUL. *)
Fixpoint strlen (s : string) : nat :=
  match s with
  | EmptyString => O
  | String c t => if (N_of_ascii c =? 0)%N then O else S (strlen t)
  end.

(** [key[i]]; the terminator is read as 0. *)
Definition char_at (s : string) (i : nat) : Z :=
  match String.get i s with
  | Some c => char_val c
  | None => 0
  end.

(** Characters of the 7-bit ASCII set, NUL excluded. *)
Definition is_ascii7 (c : ascii) : bool :=
  let n := N_of_ascii c in ((0 <? n) && (n <? 128))%N.

(** ** Macros and constants of smc.c *)

Definition DATA_TYPE_UINT8 : string := "ui8 ".
Definition DATA_TYPE_UINT16 : string := "ui16".
Definition DATA_TYPE_UINT32 : string := "ui32".
Definition DATA_TYPE_FLAG : string := "flag".
Definition DATA_TYPE_FPE2 : string := "fpe2".
Definition DATA_TYPE_SP78 : string := "sp78".

Definition SMC_KEY_SIZE : nat := 4.
Definition DATA_TYPE_SIZE : nat := 4.

(** [kSMC_t]. *)
Definition kSMCSuccess : Z := 0.
Definition kSMCError : Z := 1.
Definition kSMCKeyNotFound : Z := 0x84.

(** [selector_t]. *)
Definition kSMCHandleYPCEvent : Z := 2.
Definition kSMCReadKey : Z := 5.
Definition kSMCWriteKey : Z := 6.
Definition kSMCGetKeyInfo : Z := 9.

(** Keys of smc.h used by the facade. *)
Definition NUM_FANS : string := "FNum".
Definition BATT_PWR : string := "BATP".
Definition ODD_FULL : string := "MSDI".

(** ** Type conversion helpers *)

(** [from_fpe2]: [ans += data[0] << 6; ans += data[1] << 2]. *)
Definition from_fpe2 (data : list Z) : Z :=
  let ans := 0 in
  let ans := u32 (ans + Z.shiftl (byte_at data 0) 6) in
  let ans := u32 (ans + Z.shiftl (byte_at data 1) 2) in
  ans.

(** [to_fpe2]: [data[0] = val >> 6; data[1] = (val << 2) ^ (data[0] << 8)]. *)
Definition to_fpe2 (val : Z) (data : list Z) : list Z :=
  let data := upd data 0 (u8 (Z.shiftr val 6)) in
  let data := upd data 1
                  (u8 (Z.lxor (u32 (Z.shiftl val 2))
                              (Z.shiftl (byte_at data 0) 8))) in
  data.

(** One turn of the loop of [to_uint32_t]:
    [ans += key[i] << shift; shift -= 8]. *)
Definition to_uint32_t_step (key : string) (st : Z * Z) (i : nat) : Z * Z :=
  let '(ans, shift) := st in
  (u32 (ans + Z.shiftl (char_at key i) shift), u32 (shift - 8)).

(** [to_uint32_t]: zero unless [strlen(key) == SMC_KEY_SIZE]. *)
Definition to_uint32_t (key : string) : Z :=
  if negb (Nat.eqb (strlen key) SMC_KEY_SIZE) then 0
  else fst (fold_left (to_uint32_t_step key) (seq 0 SMC_KEY_SIZE) (0, 24)).

(** One turn of the loop of [to_string]:
    [dataType[i] = (val >> shift) & 0xff; shift -= 8]. *)
Definition to_string_step (val : Z) (st : list Z * Z) (i : nat) : list Z * Z :=
  let '(dataType, shift) := st in
  (upd dataType i (Z.land (Z.shiftr val shift) 0xff), shift - 8).

(** [to_string]: fills the first four bytes of the caller's buffer. *)
Definition to_string (val : Z) (dataType : list Z) : list Z :=
  fst (fold_left (to_string_step val) (seq 0 DATA_TYPE_SIZE) (dataType, 24)).

(** [to_fahrenheit]. *)
Definition to_fahrenheit (tmp : float) : float := (tmp * 1.8 + 32)%float.

(** [to_kelvin]. *)
Definition to_kelvin (tmp : float) : float := (tmp + 273.15)%float.

(** ** Structs *)

(** [SMCVersion]. *)
Record SMCVersion := mkSMCVersion {
  major : Z; minor : Z; build : Z; reserved : Z; release : Z }.

(** [SMCPLimitData]. *)
Record SMCPLimitData := mkSMCPLimitData {
  pl_version : Z; pl_length : Z; cpuPLimit : Z; gpuPLimit : Z; memPLimit : Z }.

(** [SMCKeyInfoData]. *)
Record SMCKeyInfoData := mkSMCKeyInfoData {
  ki_dataSize : Z; ki_dataType : Z; ki_dataAttributes : Z }.

(** [SMCParamStruct], the request and response block of the driver. *)
Record SMCParamStruct := mkSMCParamStruct {
  ps_key : Z;
  ps_vers : SMCVersion;
  ps_pLimitData : SMCPLimitData;
  ps_keyInfo : SMCKeyInfoData;
  ps_result : Z;
  ps_status : Z;
  ps_data8 : Z;
  ps_data32 : Z;
  ps_bytes : list Z }.

(** [smc_return_t]. *)
Record smc_return_t := mk_smc_return_t {
  ret_data : list Z;
  ret_dataType : Z;
  ret_dataSize : Z;
  ret_kSMC : Z }.

(** [memset(&s, 0, sizeof(SMCParamStruct))]. *)
Definition SMCParamStruct_zero : SMCParamStruct :=
  mkSMCParamStruct 0 (mkSMCVersion 0 0 0 0 0) (mkSMCPLimitData 0 0 0 0 0)
                   (mkSMCKeyInfoData 0 0 0) 0 0 0 0 (zeros 32).

(** [memset(&r, 0, sizeof(smc_return_t))]. *)
Definition smc_return_zero : smc_return_t := mk_smc_return_t (zeros 32) 0 0 0.

Definition set_ps_key (s : SMCParamStruct) (v : Z) : SMCParamStruct :=
  mkSMCParamStruct v (ps_vers s) (ps_pLimitData s) (ps_keyInfo s) (ps_result s)
                   (ps_status s) (ps_data8 s) (ps_data32 s) (ps_bytes s).

Definition set_ps_data8 (s : SMCParamStruct) (v : Z) : SMCParamStruct :=
  mkSMCParamStruct (ps_key s) (ps_vers s) (ps_pLimitData s) (ps_keyInfo s)
                   (ps_result s) (ps_status s) v (ps_data32 s) (ps_bytes s).

Definition set_ps_bytes (s : SMCParamStruct) (v : list Z) : SMCParamStruct :=
  mkSMCParamStruct (ps_key s) (ps_vers s) (ps_pLimitData s) (ps_keyInfo s)
                   (ps_result s) (ps_status s) (ps_data8 s) (ps_data32 s) v.

Definition set_ps_keyInfo_dataSize (s : SMCParamStruct) (v : Z) : SMCParamStruct :=
  mkSMCParamStruct (ps_key s) (ps_vers s) (ps_pLimitData s)
                   (mkSMCKeyInfoData v (ki_dataType (ps_keyInfo s))
                                     (ki_dataAttributes (ps_keyInfo s)))
                   (ps_result s) (ps_status s) (ps_data8 s) (ps_data32 s)
                   (ps_bytes s).

Definition set_ret_data (r : smc_return_t) (v : list Z) : smc_return_t :=
  mk_smc_return_t v (ret_dataType r) (ret_dataSize r) (ret_kSMC r).

Definition set_ret_dataType (r : smc_return_t) (v : Z) : smc_return_t :=
  mk_smc_return_t (ret_data r) v (ret_dataSize r) (ret_kSMC r).

Definition set_ret_dataSize (r : smc_return_t) (v : Z) : smc_return_t :=
  mk_smc_return_t (ret_data r) (ret_dataType r) v (ret_kSMC r).

Definition set_ret_kSMC (r : smc_return_t) (v : Z) : smc_return_t :=
  mk_smc_return_t (ret_data r) (ret_dataType r) (ret_dataSize r) v.

(** [tmp_unit_t] of smc.h. *)
Inductive tmp_unit_t := CELSIUS | FAHRENHEIT | KELVIN.

(** ** I/O Kit *)

(** Return codes of <IOKit/IOReturn.h>, as values of the signed
    [kern_return_t]. *)
Definition kIOReturnSuccess : Z := 0.
Definition kIOReturnError : Z := 0xE00002BC - 2 ^ 32.
Definition kIOReturnBadArgument : Z := 0xE00002C2 - 2 ^ 32.

(** [err_get_code] of <mach/error.h>: [(err) & 0x3fff]. *)
Definition err_get_code (err : Z) : Z := Z.land err 0x3fff.

(** The I/O Kit entry points smc.c calls, over a kernel state [K] that the
    program never inspects.  Each takes the kernel state first and returns
    the next one last; outputs written through pointers are returned. *)
Record IOKit (K : Type) := mkIOKit {
  (* IOServiceGetMatchingService(kIOMasterPortDefault, IOServiceMatching(name)) *)
  IOServiceGetMatchingService : K -> string -> Z * K;
  (* IOServiceOpen(service, mach_task_self(), type, &conn), given the
     connection before the call: the code and the connection after it *)
  IOServiceOpen : K -> Z -> Z -> Z -> Z * Z * K;
  IOServiceClose : K -> Z -> Z * K;
  IOObjectRelease : K -> Z -> K;
  (* IOConnectCallStructMethod(conn, selector, in, sizeof, out, &cnt):
     the code and the contents of the output block afterwards *)
  IOConnectCallStructMethod :
    K -> Z -> Z -> SMCParamStruct -> SMCParamStruct -> Z * SMCParamStruct * K }.

Arguments IOServiceGetMatchingService {K}.
Arguments IOServiceOpen {K}.
Arguments IOServiceClose {K}.
Arguments IOObjectRelease {K}.
Arguments IOConnectCallStructMethod {K}.

Definition IOSERVICE_SMC : string := "AppleSMC".

(** The program state: the static [conn], the kernel behind I/O Kit, and the
    requests handed to [IOConnectCallStructMethod] so far, oldest first. *)
Record World (K : Type) := mkWorld {
  conn : Z;
  kernel : K;
  trace : list SMCParamStruct }.

Arguments mkWorld {K}.
Arguments conn {K}.
Arguments kernel {K}.
Arguments trace {K}.

(** Computations over the world. *)
Definition M (K A : Type) : Type := World K -> A * World K.

Definition ret {K A : Type} (a : A) : M K A := fun w => (a, w).

Definition bind {K A B : Type} (m : M K A) (k : A -> M K B) : M K B :=
  fun w => let (a, w') := m w in k a w'.

Notation "x <- m ;; k" := (bind m (fun x => k))
  (at level 61, m at next level, right associativity).
Notation "' p <- m ;; k" := (bind m (fun x => let p := x in k))
  (at level 61, p pattern, m at next level, right associativity).

(** ** sprintf *)

(** The character of a decimal digit. *)
Definition digit_char (d : Z) : ascii := ascii_of_N (Z.to_N (48 + d)).

(** Decimal digits of a non-negative number, most significant first; ten
    rounds cover every 32-bit value. *)
Fixpoint digits_from (fuel : nat) (n : Z) (acc : string) : string :=
  match fuel with
  | O => acc
  | S f =>
      let acc' := String (digit_char (n mod 10)) acc in
      if n / 10 =? 0 then acc' else digits_from f (n / 10) acc'
  end.

(** The conversion [%d] applied to an [unsigned int] argument: the 32 bits
    are printed as a signed [int]. *)
Definition fmt_d (n : Z) : string :=
  let i := if u32 n <? 2 ^ 31 then u32 n else u32 n - 2 ^ 32 in
  if i <? 0 then String "-"%char (digits_from 10 (- i) EmptyString)
  else digits_from 10 i EmptyString.

(** The text [sprintf(key, "F%d<suffix>", fan_num)] formats.  This is the
    whole text; the array [char key[5]] it is written to has room for four
    characters and the NUL, which [sprintf_key] below accounts for. *)
Definition sprintf_fan_key (suffix : string) (fan_num : Z) : string :=
  ("F" ++ fmt_d fan_num ++ suffix)%string.

(** ** Transactions *)

Section SMC.

Context {K : Type} (io : IOKit K).

(** [call_smc]. *)
Definition call_smc (inputStruct outputStruct : SMCParamStruct)
  : M K (Z * SMCParamStruct) :=
  fun w =>
    let '(result, outputStruct, k) :=
      IOConnectCallStructMethod io (kernel w) (conn w) kSMCHandleYPCEvent
                                inputStruct outputStruct in
    let result :=
      if negb (result =? kIOReturnSuccess) then err_get_code result
      else result in
    ((result, outputStruct), mkWorld (conn w) k (trace w ++ [inputStruct])).

(** [read_smc]: the caller's [result_smc] is cleared first, so only the
    final one is modelled. *)
Definition read_smc (key : string) : M K (Z * smc_return_t) :=
  let inputStruct := SMCParamStruct_zero in
  let outputStruct := SMCParamStruct_zero in
  let result_smc := smc_return_zero in
  (* First call to AppleSMC - get key info *)
  let inputStruct := set_ps_key inputStruct (to_uint32_t key) in
  let inputStruct := set_ps_data8 inputStruct kSMCGetKeyInfo in
  '(result, outputStruct) <- call_smc inputStruct outputStruct ;;
  let result_smc := set_ret_kSMC result_smc (ps_result outputStruct) in
  if negb (result =? kIOReturnSuccess)
     || negb (ps_result outputStruct =? kSMCSuccess)
  then ret (result, result_smc)
  else
    (* Store data for return *)
    let result_smc :=
      set_ret_dataSize result_smc (u32 (ki_dataSize (ps_keyInfo outputStruct))) in
    let result_smc :=
      set_ret_dataType result_smc (ki_dataType (ps_keyInfo outputStruct)) in
    (* Second call to AppleSMC - now we can get the data *)
    let inputStruct :=
      set_ps_keyInfo_dataSize inputStruct (ki_dataSize (ps_keyInfo outputStruct)) in
    let inputStruct := set_ps_data8 inputStruct kSMCReadKey in
    '(result, outputStruct) <- call_smc inputStruct outputStruct ;;
    let result_smc := set_ret_kSMC result_smc (ps_result outputStruct) in
    if negb (result =? kIOReturnSuccess)
       || negb (ps_result outputStruct =? kSMCSuccess)
    then ret (result, result_smc)
    else
      let result_smc := set_ret_data result_smc (ps_bytes outputStruct) in
      ret (result, result_smc).

(** [write_smc]: [result_smc] comes in with the caller's data, size and type. *)
Definition write_smc (key : string) (result_smc : smc_return_t)
  : M K (Z * smc_return_t) :=
  let inputStruct := SMCParamStruct_zero in
  let outputStruct := SMCParamStruct_zero in
  (* First call to AppleSMC - get key info *)
  let inputStruct := set_ps_key inputStruct (to_uint32_t key) in
  let inputStruct := set_ps_data8 inputStruct kSMCGetKeyInfo in
  '(result, outputStruct) <- call_smc inputStruct outputStruct ;;
  let result_smc := set_ret_kSMC result_smc (ps_result outputStruct) in
  if negb (result =? kIOReturnSuccess)
     || negb (ps_result outputStruct =? kSMCSuccess)
  then ret (result, result_smc)
  else
    (* Check data is correct *)
    if negb (ret_dataSize result_smc =? ki_dataSize (ps_keyInfo outputStruct))
       || negb (ret_dataType result_smc =? ki_dataType (ps_keyInfo outputStruct))
    then ret (kIOReturnBadArgument, result_smc)
    else
      (* Second call to AppleSMC - now we can write the data *)
      let inputStruct := set_ps_data8 inputStruct kSMCWriteKey in
      let inputStruct :=
        set_ps_keyInfo_dataSize inputStruct (ki_dataSize (ps_keyInfo outputStruct)) in
      (* Set data to write *)
      let inputStruct := set_ps_bytes inputStruct (ret_data result_smc) in
      '(result, outputStruct) <- call_smc inputStruct outputStruct ;;
      let result_smc := set_ret_kSMC result_smc (ps_result outputStruct) in
      ret (result, result_smc).

(** ** Public functions *)

(** [open_smc]; the message printed when the service is missing is not
    modelled. *)
Definition open_smc : M K Z :=
  fun w =>
    let '(service, k) :=
      IOServiceGetMatchingService io (kernel w) IOSERVICE_SMC in
    if service =? 0 then (kIOReturnError, mkWorld (conn w) k (trace w))
    else
      let '(result, c, k) := IOServiceOpen io k service 0 (conn w) in
      let k := IOObjectRelease io k service in
      (result, mkWorld c k (trace w)).

(** [close_smc]. *)
Definition close_smc : M K Z :=
  fun w =>
    let '(result, k) := IOServiceClose io (kernel w) (conn w) in
    (result, mkWorld (conn w) k (trace w)).

(** [is_key_valid]; the message printed for a key of the wrong size is not
    modelled. *)
Definition is_key_valid (key : string) : M K bool :=
  let ans := false in
  if negb (Nat.eqb (strlen key) SMC_KEY_SIZE) then ret ans
  else
    '(result, result_smc) <- read_smc key ;;
    if (result =? kIOReturnSuccess) && (ret_kSMC result_smc =? kSMCSuccess)
    then ret true else ret ans.

(** [double tmp = result_smc.data[0]]. *)
Definition double_of_byte (b : Z) : float := PrimFloat.of_uint63 (Uint63.of_Z b).

(** [get_tmp]. *)
Definition get_tmp (key : string) (unit : tmp_unit_t) : M K float :=
  '(result, result_smc) <- read_smc key ;;
  if negb ((result =? kIOReturnSuccess)
           && (ret_dataSize result_smc =? 2)
           && (ret_dataType result_smc =? to_uint32_t DATA_TYPE_SP78))
  then ret 0%float
  else
    let tmp := double_of_byte (byte_at (ret_data result_smc) 0) in
    match unit with
    | CELSIUS => ret tmp
    | FAHRENHEIT => ret (to_fahrenheit tmp)
    | KELVIN => ret (to_kelvin tmp)
    end.

(** [is_battery_powered]. *)
Definition is_battery_powered : M K bool :=
  '(result, result_smc) <- read_smc BATT_PWR ;;
  if negb ((result =? kIOReturnSuccess)
           && (ret_dataSize result_smc =? 1)
           && (ret_dataType result_smc =? to_uint32_t DATA_TYPE_FLAG))
  then ret false
  else ret (negb (byte_at (ret_data result_smc) 0 =? 0)).

(** [is_optical_disk_drive_full]. *)
Definition is_optical_disk_drive_full : M K bool :=
  '(result, result_smc) <- read_smc ODD_FULL ;;
  if negb ((result =? kIOReturnSuccess)
           && (ret_dataSize result_smc =? 1)
           && (ret_dataType result_smc =? to_uint32_t DATA_TYPE_FLAG))
  then ret false
  else ret (negb (byte_at (ret_data result_smc) 0 =? 0)).



(** [get_num_fans]. *)
Definition get_num_fans : M K Z :=
  '(result, result_smc) <- read_smc NUM_FANS ;;
  if negb ((result =? kIOReturnSuccess)
           && (ret_dataSize result_smc =? 1)
           && (ret_dataType result_smc =? to_uint32_t DATA_TYPE_UINT8))
  then ret (-1)
  else ret (byte_at (ret_data result_smc) 0).

(** [get_fan_rpm]; exact for the fans 0 to 9, as [get_fan_name]. *)
Definition get_fan_rpm (fan_num : Z) : M K Z :=
  let key := sprintf_fan_key "Ac" fan_num in
  '(result, result_smc) <- read_smc key ;;
  if negb ((result =? kIOReturnSuccess)
           && (ret_dataSize result_smc =? 2)
           && (ret_dataType result_smc =? to_uint32_t DATA_TYPE_FPE2))
  then ret 0
  else ret (from_fpe2 (ret_data result_smc)).

(** [set_fan_min_rpm]; exact for the fans 0 to 9, as [get_fan_name]: the
    source builds the payload first and formats the key after it, so a key
    that overruns [char key[5]] can also spoil the payload. *)
Definition set_fan_min_rpm (fan_num rpm : Z) (auth : bool) : M K bool :=
  let ans := false in
  let result_smc := smc_return_zero in
  let result_smc := set_ret_dataSize result_smc 2 in
  let result_smc := set_ret_dataType result_smc (to_uint32_t DATA_TYPE_FPE2) in
  let result_smc := set_ret_data result_smc (to_fpe2 rpm (ret_data result_smc)) in
  let key := sprintf_fan_key "Mn" fan_num in
  '(result, result_smc) <- write_smc key result_smc ;;
  if (result =? kIOReturnSuccess) && (ret_kSMC result_smc =? kSMCSuccess)
  then ret true else ret ans.

End SMC.

(** ** A scripted driver

    A test double for the driver: the kernel state is the list of replies
    still to be given by [IOConnectCallStructMethod], each a return code and
    the output block it leaves.  With the script exhausted the call fails and
    leaves the output block as it was.  The service is always found and
    opens with connection 0x1003. *)
Module Mock.

Definition script : Type := list (Z * SMCParamStruct).

Definition driver : IOKit script :=
  mkIOKit script
    (fun k _ => (1, k))
    (fun k _ _ _ => (kIOReturnSuccess, 0x1003, k))
    (fun k _ => (kIOReturnSuccess, k))
    (fun k _ => k)
    (fun k _ _ _ out =>
       match k with
       | [] => (kIOReturnError, out, [])
       | (r, o) :: k' => (r, o, k')
       end).

(** A successful key-info reply carrying [(size, type)]. *)
Definition key_info (size : Z) (type : string) : Z * SMCParamStruct :=
  (kIOReturnSuccess,
   mkSMCParamStruct 0 (mkSMCVersion 0 0 0 0 0) (mkSMCPLimitData 0 0 0 0 0)
                    (mkSMCKeyInfoData size (to_uint32_t type) 0) 0 0 0 0
                    (zeros 32)).

(** A successful data reply: the payload padded with zeros to 32 bytes. *)
Definition payload (bytes : list Z) : Z * SMCParamStruct :=
  (kIOReturnSuccess,
   set_ps_bytes SMCParamStruct_zero
                (bytes ++ zeros (32 - List.length bytes))).

(** A reply the I/O Kit call delivers with the SMC result byte [st]. *)
Definition smc_status (st : Z) : Z * SMCParamStruct :=
  (kIOReturnSuccess,
   mkSMCParamStruct 0 (mkSMCVersion 0 0 0 0 0) (mkSMCPLimitData 0 0 0 0 0)
                    (mkSMCKeyInfoData 0 0 0) st 0 0 0 (zeros 32)).

(** A failure of the I/O Kit call itself with code [r]. *)
Definition io_failure (r : Z) : Z * SMCParamStruct := (r, SMCParamStruct_zero).

(** The world before [open_smc], with the replies to come. *)
Definition boot (k : script) : World script := mkWorld 0 k [].

(** The world after a successful [open_smc]. *)
Definition opened (k : script) : World script := snd (open_smc driver (boot k)).

End Mock.

(** ** Vocabulary of the statements *)

(** The request of the first call: the zeroed block with the encoded key and
    the selector [kSMCGetKeyInfo]. *)
Definition info_request (key : string) : SMCParamStruct :=
  set_ps_data8 (set_ps_key SMCParamStruct_zero (to_uint32_t key)) kSMCGetKeyInfo.

(** The request of the second call of [read_smc], given the size that the
    first call reported. *)
Definition read_request (key : string) (size : Z) : SMCParamStruct :=
  set_ps_data8 (set_ps_keyInfo_dataSize (info_request key) size) kSMCReadKey.

(** The request of the second call of [write_smc]. *)
Definition write_request (key : string) (size : Z) (data : list Z)
  : SMCParamStruct :=
  set_ps_bytes
    (set_ps_keyInfo_dataSize (set_ps_data8 (info_request key) kSMCWriteKey) size)
    data.

(** The requests a computation hands to the driver when run from [w]. *)
Definition issued {K A : Type} (m : M K A) (w : World K) : list SMCParamStruct :=
  skipn (List.length (trace w)) (trace (snd (m w))).

(** Error names of the transaction engine. *)
Inductive smc_error := KeyNotFound | TypeMismatch | ChannelError.

(** How a caller reads the pair a transaction leaves: the returned code and
    [result_smc.kSMC].  Success is [result == kIOReturnSuccess &&
    result_smc.kSMC == kSMCSuccess], as [is_key_valid] and [set_fan_min_rpm]
    test it; [kIOReturnBadArgument] is the code of the size and type check,
    [kSMCKeyNotFound] the SMC's code for an absent key. *)
Definition outcome (result kSMC : Z) : option smc_error :=
  if result =? kIOReturnBadArgument then Some TypeMismatch
  else if negb (result =? kIOReturnSuccess) then Some ChannelError
  else if kSMC =? kSMCSuccess then None
  else if kSMC =? kSMCKeyNotFound then Some KeyNotFound
  else Some ChannelError.



(** A [char] buffer read as a C string. *)
Fixpoint c_string (buf : list Z) : string :=
  match buf with
  | [] => EmptyString
  | b :: t =>
      if b =? 0 then EmptyString
      else String (ascii_of_N (Z.to_N b)) (c_string t)
  end.

(** The code of a character as an unsigned byte. *)
Definition code (c : ascii) : Z := Z.of_N (N_of_ascii c).

(** The number a string of decimal digits denotes, read left to right from
    the value [v] accumulated so far. *)
Fixpoint digits_value (s : string) (v : Z) : Z :=
  match s with
  | EmptyString => v
  | String c t => digits_value t (10 * v + (code c - 48))
  end.

(** The unit conversion of [get_tmp] on a Celsius reading. *)
Definition convert_tmp (unit : tmp_unit_t) (celsius : float) : float :=
  match unit with
  | CELSIUS => celsius
  | FAHRENHEIT => (celsius * 1.8 + 32)%float
  | KELVIN => (celsius + 273.15)%float
  end.

(** The test after each call, [result != kIOReturnSuccess ||
    outputStruct.result != kSMCSuccess]. *)
Definition call_failed (r : Z) (out : SMCParamStruct) : bool :=
  negb (r =? kIOReturnSuccess) || negb (ps_result out =? kSMCSuccess).

(** The record [read_smc] holds once the first call has succeeded. *)
Definition after_info (out1 : SMCParamStruct) : smc_return_t :=
  set_ret_dataType
    (set_ret_dataSize (set_ret_kSMC smc_return_zero (ps_result out1))
                      (u32 (ki_dataSize (ps_keyInfo out1))))
    (ki_dataType (ps_keyInfo out1)).

(** The size and type check of [write_smc]. *)
Definition contract_differs (result_smc : smc_return_t) (out : SMCParamStruct)
  : bool :=
  negb (ret_dataSize result_smc =? ki_dataSize (ps_keyInfo out))
  || negb (ret_dataType result_smc =? ki_dataType (ps_keyInfo out)).

(** Every request of a transaction carries the encoded key. *)
Definition for_key (key : string) (rq : SMCParamStruct) : Prop :=
  ps_key rq = to_uint32_t key.

(** No NUL among the characters of a string. *)
Fixpoint no_nul (s : string) : bool :=
  match s with
  | EmptyString => true
  | String c t => negb (N_of_ascii c =? 0)%N && no_nul t
  end.

(** The key templates of the fan functions: "F%dAc", "F%dID", "F%dMn". *)
Definition fan_key_suffixes : list string := ["Ac"; "ID"; "Mn"]%string.


(** The driver, asked from [w] about [key], answers the key-info call with
    success and [(size, type)], and the read call that follows with success
    and the payload [bytes]; [w2] is the world after both. *)
Definition answers {K : Type} (io : IOKit K) (key : string) (w : World K)
           (size type : Z) (bytes : list Z) (w2 : World K) : Prop :=
  exists out1 w1 out2,
    call_smc io (info_request key) SMCParamStruct_zero w
      = ((kIOReturnSuccess, out1), w1) /\
    ps_result out1 = kSMCSuccess /\
    ki_dataSize (ps_keyInfo out1) = size /\
    ki_dataType (ps_keyInfo out1) = type /\
    call_smc io (read_request key size) out1 w1
      = ((kIOReturnSuccess, out2), w2) /\
    ps_result out2 = kSMCSuccess /\
    ps_bytes out2 = bytes.

(** The test each reading function applies to what [read_smc] left:
    [result == kIOReturnSuccess && dataSize == size && dataType == type]. *)
Definition accepted (r : Z) (rs : smc_return_t) (size type : Z) : bool :=
  (r =? kIOReturnSuccess) && (ret_dataSize rs =? size)
  && (ret_dataType rs =? type).

(** Proves [answers Mock.driver key w size type bytes w2] by running the two
    calls on the script. *)
Ltac run_script key size w :=
  let first := constr:(call_smc Mock.driver (info_request key)
                                SMCParamStruct_zero w) in
  let second := constr:(call_smc Mock.driver (read_request key size)
                                 (snd (fst first)) (snd first)) in
  exists (snd (fst first)), (snd first), (snd (fst second));
  repeat apply conj; vm_compute; reflexivity.


(** The record [set_fan_min_rpm] hands to [write_smc]: size 2, type "fpe2"
    and the two bytes of [rpm] in a cleared payload. *)
Definition min_rpm_record (rpm : Z) : smc_return_t :=
  mk_smc_return_t (to_fpe2 rpm (zeros 32)) (to_uint32_t DATA_TYPE_FPE2) 2 0.


(** * go-lxc bindings (lxc-binding.c) *)

Module LXC.

(** ** Version test *)

(** [VERSION_AT_LEAST(major, minor, micro)], over the three macros of
    <lxc/version.h>:
    [!(major > MAJOR || major == MAJOR && minor > MINOR ||
       major == MAJOR && minor == MINOR && micro > MICRO)]. *)
Definition VERSION_AT_LEAST
           (LXC_VERSION_MAJOR LXC_VERSION_MINOR LXC_VERSION_MICRO : Z)
           (major minor micro : Z) : bool :=
  negb ((major >? LXC_VERSION_MAJOR)
        || ((major =? LXC_VERSION_MAJOR) && (minor >? LXC_VERSION_MINOR))
        || ((major =? LXC_VERSION_MAJOR) && (minor =? LXC_VERSION_MINOR)
            && (micro >? LXC_VERSION_MICRO))).

(** Versions in dictionary order. *)
Definition version_le (a b c a' b' c' : Z) : Prop :=
  a < a' \/ (a = a' /\ (b < b' \/ (b = b' /\ c <= c'))).

(** ** The container and the C library *)

(** [lxc_attach_env_policy_t]. *)
Inductive lxc_attach_env_policy_t := LXC_ATTACH_KEEP_ENV | LXC_ATTACH_CLEAR_ENV.

(** The fields of [lxc_attach_options_t] the bindings deal with; a pointer
    is [None] when it is NULL. *)
Record lxc_attach_options_t := mk_attach_options {
  attach_flags : Z;
  namespaces : Z;
  personality : Z;
  initial_cwd : option string;
  uid : Z;
  gid : Z;
  env_policy : lxc_attach_env_policy_t;
  extra_env_vars : option (list string);
  extra_keep_env : option (list string);
  stdin_fd : Z;
  stdout_fd : Z;
  stderr_fd : Z }.

(** The members of [struct lxc_container] used below, over a state [K] of
    the container library.  A getter takes the key, whether the buffer is
    given (not NULL) and [inlen], and returns its code and the text it
    wrote.  [attach] returns its code and the pid it stored;
    [attach_run_wait] takes the options and [argv], its program being
    [argv[0]]. *)
Record lxc_container (K : Type) := mk_lxc_container {
  get_config_item : K -> string -> bool -> Z -> Z * string * K;
  get_keys : K -> string -> bool -> Z -> Z * string * K;
  get_cgroup_item : K -> string -> bool -> Z -> Z * string * K;
  attach : K -> lxc_attach_options_t -> Z * Z * K;
  attach_run_wait : K -> lxc_attach_options_t -> list string -> Z * K }.

Arguments get_config_item {K}.
Arguments get_keys {K}.
Arguments get_cgroup_item {K}.
Arguments attach {K}.
Arguments attach_run_wait {K}.

(** The C library: [malloc] says whether it returned a buffer; [waitpid]
    returns its value, the status it stored and [errno]. *)
Record libc (K : Type) := mk_libc {
  malloc : K -> Z -> bool * K;
  waitpid : K -> Z -> Z * Z * Z * K }.

Arguments malloc {K}.
Arguments waitpid {K}.

(** [EINTR] of <errno.h>, and the status macros of <sys/wait.h>:
    [WIFEXITED(s)] is [((s) & 0x7f) == 0], [WEXITSTATUS(s)] is
    [((s) & 0xff00) >> 8]. *)
Definition EINTR : Z := 4.
Definition WIFEXITED (s : Z) : bool := Z.land s 0x7f =? 0.
Definition WEXITSTATUS (s : Z) : Z := Z.shiftr (Z.land s 0xff00) 8.

(** What the bindings asked of the library and of libc, oldest first. *)
Inductive event :=
| EvGetConfigItem (key : string) (retv : bool) (inlen : Z)
| EvGetKeys (key : string) (retv : bool) (inlen : Z)
| EvGetCgroupItem (key : string) (retv : bool) (inlen : Z)
| EvMalloc (size : Z)
| EvAttach (options : lxc_attach_options_t)
| EvAttachRunWait (options : lxc_attach_options_t) (argv : list string)
| EvWaitpid (pid : Z).

Record world (K : Type) := mk_world {
  state : K;
  log : list event }.

Arguments mk_world {K}.
Arguments state {K}.
Arguments log {K}.

Section Bindings.

Context {K : Type} (c : lxc_container K) (os : libc K).

(** The body shared, word for word but for the member called, by
    [go_lxc_get_config_item], [go_lxc_get_keys] and
    [go_lxc_get_cgroup_item]: ask for the length, allocate [len + 1] bytes,
    fetch, and return the buffer only if the fetch reports the same length. *)
Definition get_item (getter : K -> string -> bool -> Z -> Z * string * K)
           (ev : string -> bool -> Z -> event)
           (key : string) (w : world K) : option string * world K :=
  let '(len, _, k) := getter (state w) key false 0 in
  let w := mk_world k (log w ++ [ev key false 0]) in
  if len <=? 0 then (None, w)
  else
    let '(value, k) := malloc os (state w) (len + 1) in
    let w := mk_world k (log w ++ [EvMalloc (len + 1)]) in
    let '(r, text, k) := getter (state w) key value (len + 1) in
    let w := mk_world k (log w ++ [ev key value (len + 1)]) in
    if negb (r =? len) then (None, w)
    else ((if value then Some text else None), w).

(** [go_lxc_get_config_item]. *)
Definition go_lxc_get_config_item : string -> world K -> option string * world K :=
  get_item (get_config_item c) EvGetConfigItem.

(** [go_lxc_get_keys]. *)
Definition go_lxc_get_keys : string -> world K -> option string * world K :=
  get_item (get_keys c) EvGetKeys.

(** [go_lxc_get_cgroup_item]. *)
Definition go_lxc_get_cgroup_item : string -> world K -> option string * world K :=
  get_item (get_cgroup_item c) EvGetCgroupItem.

(** [wait_for_pid_status]: the loop over [again:] runs at most [fuel]
    times; [None] when the fuel is used up. *)
Fixpoint wait_for_pid_status (fuel : nat) (pid : Z) (w : world K)
  : option Z * world K :=
  match fuel with
  | O => (None, w)
  | S f =>
      let '(ret, status, errno, k) := waitpid os (state w) pid in
      let w := mk_world k (log w ++ [EvWaitpid pid]) in
      if ret =? -1 then
        if errno =? EINTR then wait_for_pid_status f pid w
        else (Some (-1), w)
      else if negb (ret =? pid) then wait_for_pid_status f pid w
      else (Some status, w)
  end.

(** The options both attach functions build: [LXC_ATTACH_OPTIONS_DEFAULT]
    (of <lxc/attach_options.h>) with the environment policy set from
    [clear_env] and the other arguments stored in their fields. *)
Definition attach_options_of (LXC_ATTACH_OPTIONS_DEFAULT : lxc_attach_options_t)
           (clear_env : bool) (namespaces personality uid gid : Z)
           (stdinfd stdoutfd stderrfd : Z) (initial_cwd : option string)
           (extra_env_vars extra_keep_env : option (list string))
  : lxc_attach_options_t :=
  mk_attach_options
    (attach_flags LXC_ATTACH_OPTIONS_DEFAULT)
    namespaces personality initial_cwd uid gid
    (if clear_env then LXC_ATTACH_CLEAR_ENV else LXC_ATTACH_KEEP_ENV)
    extra_env_vars extra_keep_env stdinfd stdoutfd stderrfd.

(** [go_lxc_attach]. *)
Definition go_lxc_attach (fuel : nat)
           (LXC_ATTACH_OPTIONS_DEFAULT : lxc_attach_options_t)
           (clear_env : bool) (namespaces personality uid gid : Z)
           (stdinfd stdoutfd stderrfd : Z) (initial_cwd : option string)
           (extra_env_vars extra_keep_env : option (list string))
           (w : world K) : option Z * world K :=
  let attach_options :=
    attach_options_of LXC_ATTACH_OPTIONS_DEFAULT clear_env namespaces
                      personality uid gid stdinfd stdoutfd stderrfd
                      initial_cwd extra_env_vars extra_keep_env in
  let '(ret, pid, k) := attach c (state w) attach_options in
  let w := mk_world k (log w ++ [EvAttach attach_options]) in
  if ret <? 0 then (Some (-1), w)
  else
    match wait_for_pid_status fuel pid w with
    | (None, w) => (None, w)
    | (Some ret, w) =>
        if ret <? 0 then (Some (-1), w)
        else if WIFEXITED ret then (Some (WEXITSTATUS ret), w)
        else (Some (-1), w)
    end.

(** [go_lxc_attach_run_wait]. *)
Definition go_lxc_attach_run_wait
           (LXC_ATTACH_OPTIONS_DEFAULT : lxc_attach_options_t)
           (clear_env : bool) (namespaces personality uid gid : Z)
           (stdinfd stdoutfd stderrfd : Z) (initial_cwd : option string)
           (extra_env_vars extra_keep_env : option (list string))
           (argv : list string) (w : world K) : Z * world K :=
  let attach_options :=
    attach_options_of LXC_ATTACH_OPTIONS_DEFAULT clear_env namespaces
                      personality uid gid stdinfd stdoutfd stderrfd
                      initial_cwd extra_env_vars extra_keep_env in
  let '(ret, k) := attach_run_wait c (state w) attach_options argv in
  let w := mk_world k (log w ++ [EvAttachRunWait attach_options argv]) in
  if WIFEXITED ret && (WEXITSTATUS ret =? 255) then (-1, w) else (ret, w).

(** [n] rounds of [waitpid] that send [wait_for_pid_status] back to
    [again:]: an interrupted call, or the pid of another child. *)
Inductive retries (pid : Z) : nat -> world K -> world K -> Prop :=
| retries_O : forall w, retries pid O w w
| retries_S : forall n w w' ret status errno k,
    waitpid os (state w) pid = (ret, status, errno, k) ->
    (ret = -1 /\ errno = EINTR) \/ (ret <> -1 /\ ret <> pid) ->
    retries pid n (mk_world k (log w ++ [EvWaitpid pid])) w' ->
    retries pid (S n) w w'.

(** What a two-step getter [f] over the member [getter] does, given the
    answer [len] to its length query: with [len <= 0] it returns NULL after
    that one call; otherwise it allocates [len + 1] bytes, calls the member
    again with that buffer and that capacity, and returns the buffer when
    it was allocated and the second call answers [len] again, NULL if not. *)
Definition fetch_spec (getter : K -> string -> bool -> Z -> Z * string * K)
           (ev : string -> bool -> Z -> event)
           (f : string -> world K -> option string * world K) : Prop :=
  forall key w len junk k1,
    getter (state w) key false 0 = (len, junk, k1) ->
    (len <= 0 ->
     f key w = (None, mk_world k1 (log w ++ [ev key false 0]))) /\
    (0 < len ->
     exists value r text k2 k3,
       malloc os k1 (len + 1) = (value, k2) /\
       getter k2 key value (len + 1) = (r, text, k3) /\
       f key w
       = ((if (r =? len) && value then Some text else None),
          mk_world k3 (log w ++ [ev key false 0; EvMalloc (len + 1);
                                 ev key value (len + 1)]))).

End Bindings.

(** A scripted double: the configuration holds one item, "lxc.utsname" =
    "box01"; [attach] starts pid 42; [waitpid] and [attach_run_wait] read
    their answers off the script, [waitpid] failing with ECHILD (10) once
    the script is used up. *)
Module Fake.

Definition script : Type := list (Z * Z * Z).

Definition getter (k : script) (key : string) (retv : bool) (inlen : Z)
  : Z * string * script :=
  if String.eqb key "lxc.utsname"
  then (5, (if retv then "box01"%string else EmptyString), k)
  else (-1, EmptyString, k).

Definition container : lxc_container script :=
  mk_lxc_container script getter getter getter
    (fun k _ => (0, 42, k))
    (fun k _ _ => match k with
                  | [] => (-1, [])
                  | (_, s, _) :: k' => (s, k')
                  end).

Definition os : libc script :=
  mk_libc script
    (fun k _ => (true, k))
    (fun k _ => match k with
                | [] => (-1, 0, 10, [])
                | (r, s, e) :: k' => (r, s, e, k')
                end).

Definition defaults : lxc_attach_options_t :=
  mk_attach_options 0 (-1) (-1) None (-1) (-1) LXC_ATTACH_KEEP_ENV
                    None None 0 1 2.

Definition start (k : script) : world script := mk_world k [].

End Fake.

End LXC.


(** Whether a text and its NUL fit the array [char key[5]]. *)
Definition fits_key (text : string) : bool := (String.length text + 1 <=? 5)%nat.

(** [sprintf(key, "F%d<suffix>", fan_num)] into [char key[5]]: the key when
    the text fits; [None] when [sprintf] writes past the array, where C
    leaves the behaviour of the program undefined. *)
Definition sprintf_key (suffix : string) (fan_num : Z) : option string :=
  let text := sprintf_fan_key suffix fan_num in
  if fits_key text then Some text else None.



(** * Properties *)

(** ** Key codec *)

Lemma u32_small (z : Z) : 0 <= z < 2 ^ 32 -> u32 z = z.
Proof. intros H. unfold u32. now apply Z.mod_small. Qed.

Lemma u8_small (z : Z) : 0 <= z < 2 ^ 8 -> u8 z = z.
Proof. intros H. unfold u8. now apply Z.mod_small. Qed.

Lemma u32_add_l (a b : Z) : u32 (u32 a + b) = u32 (a + b).
Proof. unfold u32. now rewrite Z.add_mod_idemp_l by lia. Qed.

(** The low byte of [a ^ (b << 8)] is the low byte of [a]. *)
Lemma lxor_shiftl8_low (a b : Z) :
  (Z.lxor a (Z.shiftl b 8)) mod 2 ^ 8 = a mod 2 ^ 8.
Proof.
  apply Z.bits_inj'. intros n Hn.
  destruct (Z_lt_le_dec n 8) as [Hlt | Hge].
  - rewrite !Z.mod_pow2_bits_low by lia.
    rewrite Z.lxor_spec, Z.shiftl_spec_low by lia.
    now rewrite xorb_false_r.
  - now rewrite !Z.mod_pow2_bits_high by lia.
Qed.

(** The two bytes [to_fpe2] writes, for a value that fits 14 bits. *)
Lemma to_fpe2_bytes (v a b : Z) (rest : list Z) :
  0 <= v <= 16383 ->
  to_fpe2 v (a :: b :: rest) = v / 64 :: 4 * (v mod 64) :: rest.
Proof.
  intros Hv. unfold to_fpe2. cbn [upd byte_at nth].
  assert (H0 : u8 (Z.shiftr v 6) = v / 64).
  { rewrite Z.shiftr_div_pow2 by lia. change (2 ^ 6) with 64.
    apply u8_small. change (2 ^ 8) with 256.
    split; [apply Z.div_pos; lia | apply Z.div_lt_upper_bound; lia]. }
  rewrite H0. f_equal. f_equal.
  unfold u8. rewrite lxor_shiftl8_low.
  rewrite Z.shiftl_mul_pow2 by lia.
  rewrite u32_small by (change (2 ^ 32) with 4294967296; lia).
  change (2 ^ 2) with 4. change (2 ^ 8) with (4 * 64).
  rewrite (Z.mul_comm v 4). rewrite Z.mul_mod_distr_l by lia. reflexivity.
Qed.

(** What decoding returns on the encoding of a 14-bit value: the low six
    bits come back multiplied by 16. *)
Lemma from_fpe2_to_fpe2 (v a b : Z) (rest : list Z) :
  0 <= v <= 16383 ->
  from_fpe2 (to_fpe2 v (a :: b :: rest)) = 64 * (v / 64) + 16 * (v mod 64).
Proof.
  intros Hv. rewrite to_fpe2_bytes by assumption.
  unfold from_fpe2. cbn [byte_at nth].
  rewrite !Z.shiftl_mul_pow2 by lia.
  change (2 ^ 6) with 64. change (2 ^ 2) with 4.
  assert (Hq : 0 <= v / 64 < 256)
    by (split; [apply Z.div_pos; lia | apply Z.div_lt_upper_bound; lia]).
  assert (Hr : 0 <= v mod 64 < 64) by (apply Z.mod_pos_bound; lia).
  rewrite u32_add_l.
  rewrite u32_small by (change (2 ^ 32) with 4294967296; lia). lia.
Qed.

(** The round trip holds exactly on the multiples of 64. *)
Lemma fpe2_round_trip_iff (v : Z) :
  0 <= v <= 16383 ->
  from_fpe2 (to_fpe2 v (zeros 32)) = v <-> v mod 64 = 0.
Proof.
  intros Hv. change (zeros 32) with (0 :: 0 :: zeros 30).
  rewrite from_fpe2_to_fpe2 by assumption.
  pose proof (Z.div_mod v 64 ltac:(lia)) as E.
  assert (Hr : 0 <= v mod 64 < 64) by (apply Z.mod_pos_bound; lia).
  lia.
Qed.

(** C1: the round trip [from_fpe2 (to_fpe2 v)] is broken at [v = 1], inside
    the range [0, 16383]: encoding gives the bytes 0 and 4, and decoding
    shifts the second byte left by two instead of right, returning 16. *)
Theorem fpe2_round_trip_fails_at_1 :
  to_fpe2 1 (zeros 32) = 0 :: 4 :: zeros 30 /\
  from_fpe2 (to_fpe2 1 (zeros 32)) = 16 /\
  from_fpe2 (to_fpe2 1 (zeros 32)) <> 1.
Proof. repeat split. vm_compute. discriminate. Qed.

(** *** [to_uint32_t] *)

Lemma code_bounded (c : ascii) : 0 <= code c < 256.
Proof. unfold code. pose proof (N_ascii_bounded c). lia. Qed.

Lemma char_val_range (c : ascii) : -128 <= char_val c <= 127.
Proof.
  unfold char_val. pose proof (code_bounded c) as H. unfold code in H.
  destruct (Z.ltb_spec (Z.of_N (N_of_ascii c)) 128); lia.
Qed.

Lemma char_val_nonzero (c : ascii) :
  (N_of_ascii c =? 0)%N = false -> char_val c <> 0.
Proof.
  intros H. apply N.eqb_neq in H.
  unfold char_val. pose proof (code_bounded c) as Hb. unfold code in Hb.
  destruct (Z.ltb_spec (Z.of_N (N_of_ascii c)) 128); lia.
Qed.

Lemma char_val_ascii7 (c : ascii) :
  is_ascii7 c = true -> char_val c = code c /\ 0 < code c < 128.
Proof.
  unfold is_ascii7, char_val, code. intros H.
  apply andb_true_iff in H. destruct H as [H1 H2].
  apply N.ltb_lt in H1, H2.
  destruct (Z.ltb_spec (Z.of_N (N_of_ascii c)) 128); lia.
Qed.

Lemma is_ascii7_not_nul (c : ascii) :
  is_ascii7 c = true -> (N_of_ascii c =? 0)%N = false.
Proof.
  unfold is_ascii7. intros H. apply andb_true_iff in H. destruct H as [H _].
  apply N.ltb_lt in H. apply N.eqb_neq. lia.
Qed.

(** A string of [strlen] four starts with four characters that are not NUL. *)
Lemma strlen_4_inv (key : string) :
  strlen key = 4%nat ->
  exists a b c d rest,
    key = String a (String b (String c (String d rest))) /\
    (N_of_ascii a =? 0)%N = false /\ (N_of_ascii b =? 0)%N = false /\
    (N_of_ascii c =? 0)%N = false /\ (N_of_ascii d =? 0)%N = false.
Proof.
  intros H.
  destruct key as [|a [|b [|c [|d rest]]]]; cbn [strlen] in H;
    repeat match type of H with
           | context [(N_of_ascii ?x =? 0)%N] =>
               destruct (N_of_ascii x =? 0)%N eqn:?
           end; try discriminate.
  exists a, b, c, d, rest. repeat split; assumption.
Qed.

(** The loop of [to_uint32_t], unrolled: the sum of the four shifted
    characters, reduced to 32 bits. *)
Lemma to_uint32_t_unrolled (key : string) :
  strlen key = 4%nat ->
  to_uint32_t key =
    u32 (char_at key 0 * 2 ^ 24 + char_at key 1 * 2 ^ 16
         + char_at key 2 * 2 ^ 8 + char_at key 3).
Proof.
  intros H. unfold to_uint32_t. rewrite H.
  cbn [SMC_KEY_SIZE Nat.eqb negb seq fold_left to_uint32_t_step fst].
  change (u32 (24 - 8)) with 16.
  change (u32 (16 - 8)) with 8.
  change (u32 (8 - 8)) with 0.
  rewrite !Z.shiftl_mul_pow2 by lia.
  rewrite (u32_add_l (0 + char_at key 0 * 2 ^ 24)).
  rewrite (u32_add_l (0 + char_at key 0 * 2 ^ 24 + char_at key 1 * 2 ^ 16)).
  rewrite u32_add_l. f_equal. change (2 ^ 0) with 1. lia.
Qed.

Lemma to_uint32_t_wrong_length (key : string) :
  strlen key <> 4%nat -> to_uint32_t key = 0.
Proof.
  intros H. unfold to_uint32_t, SMC_KEY_SIZE.
  apply Nat.eqb_neq in H. now rewrite H.
Qed.

Lemma to_uint32_t_nonzero (key : string) :
  strlen key = 4%nat -> to_uint32_t key <> 0.
Proof.
  intros H. rewrite to_uint32_t_unrolled by assumption.
  destruct (strlen_4_inv key H)
    as (a & b & c & d & rest & -> & Ha & Hb & Hc & Hd).
  unfold char_at. cbn [String.get].
  pose proof (char_val_range a). pose proof (char_val_range b).
  pose proof (char_val_range c). pose proof (char_val_range d).
  pose proof (char_val_nonzero d Hd).
  unfold u32. intros E.
  apply Z.mod_divide in E; [|lia]. destruct E as [q E].
  change (2 ^ 32) with 4294967296 in E. change (2 ^ 24) with 16777216 in E.
  change (2 ^ 16) with 65536 in E. change (2 ^ 8) with 256 in E.
  lia.
Qed.

Lemma to_uint32_t_big_endian (a b c d : ascii) :
  is_ascii7 a = true -> is_ascii7 b = true ->
  is_ascii7 c = true -> is_ascii7 d = true ->
  to_uint32_t (String a (String b (String c (String d EmptyString)))) =
    code a * 2 ^ 24 + code b * 2 ^ 16 + code c * 2 ^ 8 + code d.
Proof.
  intros Ha Hb Hc Hd.
  rewrite to_uint32_t_unrolled.
  - unfold char_at. cbn [String.get].
    destruct (char_val_ascii7 a Ha) as [-> ?].
    destruct (char_val_ascii7 b Hb) as [-> ?].
    destruct (char_val_ascii7 c Hc) as [-> ?].
    destruct (char_val_ascii7 d Hd) as [-> ?].
    apply u32_small.
    change (2 ^ 32) with 4294967296. change (2 ^ 24) with 16777216.
    change (2 ^ 16) with 65536. change (2 ^ 8) with 256. lia.
  - cbn [strlen].
    now rewrite (is_ascii7_not_nul a Ha), (is_ascii7_not_nul b Hb),
                (is_ascii7_not_nul c Hc), (is_ascii7_not_nul d Hd).
Qed.

(** Outside 7-bit ASCII the signed [char] spills into the bytes above it:
    with 0xE9 as second character the first byte comes out as 0x53, not
    'T' = 0x54. *)
Example to_uint32_t_high_byte :
  to_uint32_t (String "T" (String (ascii_of_nat 233) "0P")) = 0x53E93050.
Proof. reflexivity. Qed.

(** C4: a key whose length is not 4 is refused, with the value 0 that the
    code documents for it and that no key of length 4 encodes to; a key of
    four (7-bit ASCII) characters is packed big-endian, the first character
    in the most significant byte. *)
Theorem to_uint32_t_key_length :
  (forall key, strlen key <> 4%nat -> to_uint32_t key = 0) /\
  (forall key, strlen key = 4%nat -> to_uint32_t key <> 0) /\
  (forall a b c d,
      is_ascii7 a = true -> is_ascii7 b = true ->
      is_ascii7 c = true -> is_ascii7 d = true ->
      let key := String a (String b (String c (String d EmptyString))) in
      to_uint32_t key =
        code a * 2 ^ 24 + code b * 2 ^ 16 + code c * 2 ^ 8 + code d /\
      to_uint32_t key / 2 ^ 24 = code a).
Proof.
  split; [exact to_uint32_t_wrong_length|].
  split; [exact to_uint32_t_nonzero|].
  intros a b c d Ha Hb Hc Hd key. subst key.
  rewrite (to_uint32_t_big_endian a b c d Ha Hb Hc Hd). split; [reflexivity|].
  destruct (char_val_ascii7 a Ha) as [_ ?].
  destruct (char_val_ascii7 b Hb) as [_ ?].
  destruct (char_val_ascii7 c Hc) as [_ ?].
  destruct (char_val_ascii7 d Hd) as [_ ?].
  change (2 ^ 24) with 16777216. change (2 ^ 16) with 65536.
  change (2 ^ 8) with 256.
  symmetry. apply Z.div_unique with (r := code b * 65536 + code c * 256 + code d); lia.
Qed.

Lemma to_uint32_t_key_length_witness :
  to_uint32_t "F10Ac" = 0 /\
  to_uint32_t "F0Ac" <> 0 /\
  to_uint32_t "F0Ac" = 0x46304163.
Proof.
  destruct to_uint32_t_key_length as (H1 & H2 & H3).
  split; [apply H1; cbn; discriminate|].
  split; [apply H2; reflexivity|].
  exact (proj1 (H3 "F"%char "0"%char "A"%char "c"%char
                   eq_refl eq_refl eq_refl eq_refl)).
Defined.

(** [to_string] gives back the four characters of a type tag. *)
Example to_string_ui8 :
  c_string (to_string (to_uint32_t DATA_TYPE_UINT8) (zeros 5)) = DATA_TYPE_UINT8.
Proof. reflexivity. Qed.

(** *** Fan keys built by [sprintf] *)

Lemma strlen_app (s t : string) :
  no_nul s = true -> strlen (s ++ t) = (String.length s + strlen t)%nat.
Proof.
  induction s as [|c s IH]; cbn [no_nul append strlen String.length];
    [reflexivity|].
  intros H. apply andb_true_iff in H. destruct H as [Hc Hs].
  apply negb_true_iff in Hc. rewrite Hc. now rewrite IH.
Qed.

Lemma digit_char_not_nul (d : Z) :
  0 <= d < 10 -> (N_of_ascii (digit_char d) =? 0)%N = false.
Proof.
  intros H. unfold digit_char.
  rewrite N_ascii_embedding by lia. apply N.eqb_neq. lia.
Qed.

Lemma digits_from_no_nul (fuel : nat) :
  forall n acc, 0 <= n -> no_nul acc = true ->
                no_nul (digits_from fuel n acc) = true.
Proof.
  induction fuel as [|f IH]; intros n acc Hn Hacc; cbn [digits_from];
    [assumption|].
  assert (Hd : no_nul (String (digit_char (n mod 10)) acc) = true).
  { cbn [no_nul]. rewrite digit_char_not_nul
      by (apply Z.mod_pos_bound; lia). exact Hacc. }
  destruct (n / 10 =? 0); [exact Hd|].
  apply IH; [apply Z.div_pos; lia | exact Hd].
Qed.

Lemma digits_from_length (fuel : nat) :
  forall n acc,
    (String.length acc + 1 <= String.length (digits_from (S fuel) n acc))%nat.
Proof.
  induction fuel as [|f IH]; intros n acc.
  - cbn [digits_from]. destruct (n / 10 =? 0); cbn [String.length]; lia.
  - change (digits_from (S (S f)) n acc)
      with (let acc' := String (digit_char (n mod 10)) acc in
            if n / 10 =? 0 then acc' else digits_from (S f) (n / 10) acc').
    cbv zeta. destruct (n / 10 =? 0); [cbn [String.length]; lia|].
    specialize (IH (n / 10) (String (digit_char (n mod 10)) acc)).
    cbn [String.length] in IH. lia.
Qed.

Lemma digits_from_one (fuel : nat) (n : Z) (acc : string) :
  0 <= n <= 9 ->
  digits_from (S fuel) n acc = String (digit_char n) acc.
Proof.
  intros H. cbn [digits_from].
  rewrite Z.div_small by lia. rewrite Z.mod_small by lia. reflexivity.
Qed.

Lemma digits_from_two (fuel : nat) (n : Z) (acc : string) :
  10 <= n ->
  (String.length acc + 2 <= String.length (digits_from (S (S fuel)) n acc))%nat.
Proof.
  intros H.
  change (digits_from (S (S fuel)) n acc)
    with (let acc' := String (digit_char (n mod 10)) acc in
          if n / 10 =? 0 then acc' else digits_from (S fuel) (n / 10) acc').
  cbv zeta.
  assert (Hq : 1 <= n / 10) by (apply Z.div_le_lower_bound; lia).
  destruct (Z.eqb_spec (n / 10) 0) as [E | _]; [lia|].
  pose proof (digits_from_length fuel (n / 10)
                (String (digit_char (n mod 10)) acc)) as L.
  cbn [String.length] in L. lia.
Qed.

(** Ten rounds are enough: the digits printed for [n] denote [n]. *)
Lemma digits_from_value (fuel : nat) :
  forall n acc, 0 <= n < 10 ^ Z.of_nat fuel ->
                digits_value (digits_from fuel n acc) 0 = digits_value acc n.
Proof.
  induction fuel as [|f IH]; intros n acc Hn.
  - cbn [digits_from]. change (10 ^ Z.of_nat 0) with 1 in Hn.
    now replace n with 0 by lia.
  - assert (Hd : code (digit_char (n mod 10)) - 48 = n mod 10).
    { pose proof (Z.mod_pos_bound n 10 ltac:(lia)).
      unfold code, digit_char. rewrite N_ascii_embedding by lia. lia. }
    assert (Hs : digits_value (String (digit_char (n mod 10)) acc) (n / 10)
                 = digits_value acc n).
    { cbn [digits_value]. rewrite Hd. f_equal.
      pose proof (Z.div_mod n 10 ltac:(lia)). lia. }
    cbn [digits_from]. destruct (Z.eqb_spec (n / 10) 0) as [E | _].
    + rewrite <- Hs, E. reflexivity.
    + rewrite IH; [exact Hs|].
      rewrite Nat2Z.inj_succ, Z.pow_succ_r in Hn by lia.
      split; [apply Z.div_pos; lia | apply Z.div_lt_upper_bound; lia].
Qed.

(** The text of [%d] on a 32-bit argument: no NUL inside, one character up
    to 9, at least two from 10 on (a sign counts). *)
Lemma fmt_d_shape (n : Z) :
  0 <= n < 2 ^ 32 ->
  no_nul (fmt_d n) = true /\
  (n <= 9 -> String.length (fmt_d n) = 1%nat) /\
  (10 <= n -> (2 <= String.length (fmt_d n))%nat).
Proof.
  intros Hn. unfold fmt_d. rewrite (u32_small n Hn).
  change (2 ^ 32) with 4294967296 in *. change (2 ^ 31) with 2147483648.
  destruct (Z.ltb_spec n 2147483648) as [Hlt | Hge].
  - destruct (Z.ltb_spec n 0) as [? | _]; [lia|].
    split; [apply digits_from_no_nul; [lia | reflexivity]|].
    split; intros H.
    + now rewrite digits_from_one by lia.
    + pose proof (digits_from_two 8 n EmptyString H) as L.
      cbn [String.length] in L. lia.
  - destruct (Z.ltb_spec (n - 4294967296) 0) as [_ | ?]; [|lia].
    split; [|split; intros H; [lia|]].
    + cbn [no_nul]. apply digits_from_no_nul; [lia | reflexivity].
    + pose proof (digits_from_length 9 (- (n - 4294967296)) EmptyString) as L.
      cbn [String.length] in *. lia.
Qed.

Lemma strlen_sprintf_fan_key (sfx : string) (n : Z) :
  0 <= n < 2 ^ 32 ->
  strlen (sprintf_fan_key sfx n)
  = (1 + String.length (fmt_d n) + strlen sfx)%nat.
Proof.
  intros Hn. unfold sprintf_fan_key.
  change ("F" ++ fmt_d n ++ sfx)%string
    with (String "F"%char (fmt_d n ++ sfx)).
  cbn [strlen]. change (N_of_ascii "F" =? 0)%N with false. cbv iota.
  rewrite strlen_app by apply (fmt_d_shape n Hn). lia.
Qed.

Lemma strlen_fan_key_suffix (sfx : string) :
  In sfx fan_key_suffixes -> strlen sfx = 2%nat.
Proof.
  intros [<- | [<- | [<- | []]]]; reflexivity.
Qed.

(** The key of a fan has four characters exactly for the fans 0 to 9. *)
Lemma fan_key_length (sfx : string) (n : Z) :
  0 <= n < 2 ^ 32 -> In sfx fan_key_suffixes ->
  (n <= 9 -> strlen (sprintf_fan_key sfx n) = 4%nat) /\
  (10 <= n -> (4 < strlen (sprintf_fan_key sfx n))%nat).
Proof.
  intros Hn Hs. rewrite (strlen_sprintf_fan_key sfx n Hn).
  rewrite (strlen_fan_key_suffix sfx Hs).
  destruct (fmt_d_shape n Hn) as (_ & H1 & H2).
  split; intros H; [rewrite (H1 H); reflexivity | specialize (H2 H); lia].
Qed.

Lemma strlen_length (s : string) :
  no_nul s = true -> strlen s = String.length s.
Proof.
  induction s as [|c s IH]; cbn [no_nul strlen String.length]; [reflexivity|].
  intros H. apply andb_true_iff in H. destruct H as [Hc Hs].
  apply negb_true_iff in Hc. rewrite Hc. now rewrite IH.
Qed.

Lemma no_nul_app (s t : string) :
  no_nul s = true -> no_nul t = true -> no_nul (s ++ t) = true.
Proof.
  induction s as [|c s IH]; cbn [no_nul append]; [auto|].
  intros H Ht. apply andb_true_iff in H. destruct H as [Hc Hs].
  rewrite Hc. cbn [andb]. now apply IH.
Qed.

Lemma no_nul_sprintf_fan_key (sfx : string) (n : Z) :
  0 <= n < 2 ^ 32 -> In sfx fan_key_suffixes ->
  no_nul (sprintf_fan_key sfx n) = true.
Proof.
  intros Hn Hs. unfold sprintf_fan_key.
  apply (no_nul_app "F"); [reflexivity|].
  apply no_nul_app; [apply (fmt_d_shape n Hn)|].
  destruct Hs as [<- | [<- | [<- | []]]]; reflexivity.
Qed.

(** The key fits [char key[5]] exactly when the text has at most four
    characters. *)
Lemma sprintf_key_fits (sfx : string) (n : Z) :
  0 <= n < 2 ^ 32 -> In sfx fan_key_suffixes ->
  (n <= 9 -> sprintf_key sfx n = Some (sprintf_fan_key sfx n)) /\
  (10 <= n -> sprintf_key sfx n = None).
Proof.
  intros Hn Hs. destruct (fan_key_length sfx n Hn Hs) as [L4 L5].
  pose proof (strlen_length _ (no_nul_sprintf_fan_key sfx n Hn Hs)) as E.
  unfold sprintf_key, fits_key. rewrite <- E.
  split; intros H.
  - rewrite (L4 H). reflexivity.
  - specialize (L5 H).
    destruct (Nat.leb_spec (strlen (sprintf_fan_key sfx n) + 1) 5);
      [lia | reflexivity].
Qed.

(** ** Transaction engine *)

Section Transactions.

Context {K : Type} (io : IOKit K).

Lemma err_get_code_range (r : Z) : 0 <= err_get_code r <= 0x3fff.
Proof.
  unfold err_get_code. change 0x3fff with (Z.ones 14).
  rewrite Z.land_ones by lia.
  pose proof (Z.mod_pos_bound r (2 ^ 14) ltac:(lia)) as H.
  change (Z.ones 14) with (2 ^ 14 - 1). lia.
Qed.

(** One call: the connection is kept, the request is logged, and the code
    that comes back is success or a 14-bit error code. *)
Lemma call_smc_spec (i o : SMCParamStruct) (w : World K) :
  exists r out k,
    call_smc io i o w = ((r, out), mkWorld (conn w) k (trace w ++ [i])) /\
    0 <= r <= 0x3fff.
Proof.
  unfold call_smc.
  destruct (IOConnectCallStructMethod io (kernel w) (conn w)
              kSMCHandleYPCEvent i o) as [[r out] k].
  eexists _, out, k. split; [reflexivity|].
  destruct (Z.eqb_spec r kIOReturnSuccess) as [-> | Hr]; cbn [negb].
  - unfold kIOReturnSuccess. lia.
  - apply err_get_code_range.
Qed.

Lemma call_smc_inv (i o : SMCParamStruct) (w w' : World K) r out :
  call_smc io i o w = ((r, out), w') ->
  conn w' = conn w /\ trace w' = trace w ++ [i] /\ 0 <= r <= 0x3fff.
Proof.
  intros H. destruct (call_smc_spec i o w) as (r0 & out0 & k & E & Hr).
  rewrite E in H. inversion H; subst. auto.
Qed.

(** A code that [call_smc] returns is never [kIOReturnBadArgument]. *)
Lemma call_smc_not_bad_argument (r : Z) :
  0 <= r <= 0x3fff -> (r =? kIOReturnBadArgument) = false.
Proof.
  intros H. apply Z.eqb_neq. unfold kIOReturnBadArgument.
  change (0xE00002C2 - 2 ^ 32) with (-536870206). lia.
Qed.

Lemma call_failed_true (r : Z) (out : SMCParamStruct) :
  r <> kIOReturnSuccess \/ ps_result out <> kSMCSuccess ->
  call_failed r out = true.
Proof.
  unfold call_failed. intros [H | H]; apply Z.eqb_neq in H; rewrite H;
    cbn; [reflexivity | apply orb_true_r].
Qed.

Lemma call_failed_false (r : Z) (out : SMCParamStruct) :
  r = kIOReturnSuccess -> ps_result out = kSMCSuccess ->
  call_failed r out = false.
Proof.
  unfold call_failed. intros -> ->. now rewrite !Z.eqb_refl.
Qed.

(** [read_smc] when the first call fails. *)
Lemma read_smc_phase1 (key : string) (w w1 : World K) r1 out1 :
  call_smc io (info_request key) SMCParamStruct_zero w = ((r1, out1), w1) ->
  call_failed r1 out1 = true ->
  read_smc io key w =
    ((r1, set_ret_kSMC smc_return_zero (ps_result out1)), w1).
Proof.
  intros E1 F1. unfold read_smc, bind, ret.
  fold (info_request key). rewrite E1.
  fold (call_failed r1 out1). now rewrite F1.
Qed.

(** [read_smc] when the first call succeeds. *)
Lemma read_smc_phase2 (key : string) (w w1 w2 : World K) r1 out1 r2 out2 :
  call_smc io (info_request key) SMCParamStruct_zero w = ((r1, out1), w1) ->
  call_failed r1 out1 = false ->
  call_smc io (read_request key (ki_dataSize (ps_keyInfo out1))) out1 w1
    = ((r2, out2), w2) ->
  read_smc io key w =
    ((r2,
      if call_failed r2 out2
      then set_ret_kSMC (after_info out1) (ps_result out2)
      else set_ret_data (set_ret_kSMC (after_info out1) (ps_result out2))
                        (ps_bytes out2)),
     w2).
Proof.
  intros E1 F1 E2. unfold read_smc, bind, ret.
  fold (info_request key). rewrite E1.
  fold (call_failed r1 out1). rewrite F1.
  fold (read_request key (ki_dataSize (ps_keyInfo out1))). rewrite E2.
  fold (call_failed r2 out2). fold (after_info out1).
  now destruct (call_failed r2 out2).
Qed.

Lemma write_smc_phase1 (key : string) (rs : smc_return_t)
      (w w1 : World K) r1 out1 :
  call_smc io (info_request key) SMCParamStruct_zero w = ((r1, out1), w1) ->
  call_failed r1 out1 = true ->
  write_smc io key rs w = ((r1, set_ret_kSMC rs (ps_result out1)), w1).
Proof.
  intros E1 F1. unfold write_smc, bind, ret.
  fold (info_request key). rewrite E1.
  fold (call_failed r1 out1). now rewrite F1.
Qed.

Lemma write_smc_mismatch (key : string) (rs : smc_return_t)
      (w w1 : World K) r1 out1 :
  call_smc io (info_request key) SMCParamStruct_zero w = ((r1, out1), w1) ->
  call_failed r1 out1 = false ->
  contract_differs rs out1 = true ->
  write_smc io key rs w =
    ((kIOReturnBadArgument, set_ret_kSMC rs (ps_result out1)), w1).
Proof.
  intros E1 F1 D. unfold write_smc, bind, ret.
  fold (info_request key). rewrite E1.
  fold (call_failed r1 out1). rewrite F1.
  cbn [ret_dataSize ret_dataType set_ret_kSMC].
  fold (contract_differs rs out1). now rewrite D.
Qed.

Lemma write_smc_phase2 (key : string) (rs : smc_return_t)
      (w w1 w2 : World K) r1 out1 r2 out2 :
  call_smc io (info_request key) SMCParamStruct_zero w = ((r1, out1), w1) ->
  call_failed r1 out1 = false ->
  contract_differs rs out1 = false ->
  call_smc io (write_request key (ki_dataSize (ps_keyInfo out1)) (ret_data rs))
           out1 w1 = ((r2, out2), w2) ->
  write_smc io key rs w = ((r2, set_ret_kSMC rs (ps_result out2)), w2).
Proof.
  intros E1 F1 D E2. unfold write_smc, bind, ret.
  fold (info_request key). rewrite E1.
  fold (call_failed r1 out1). rewrite F1.
  cbn [ret_dataSize ret_dataType ret_data set_ret_kSMC].
  fold (contract_differs rs out1). rewrite D.
  fold (write_request key (ki_dataSize (ps_keyInfo out1)) (ret_data rs)).
  rewrite E2. reflexivity.
Qed.

Lemma skipn_length_app {A : Type} (l r : list A) :
  skipn (List.length l) (l ++ r) = r.
Proof. induction l as [|x l IH]; [reflexivity | exact IH]. Qed.

Lemma issued_of_trace {A : Type} (m : M K A) (w : World K) reqs :
  trace (snd (m w)) = trace w ++ reqs -> issued m w = reqs.
Proof. intros H. unfold issued. rewrite H. apply skipn_length_app. Qed.

(** The frame of [read_smc]: the connection is kept and the trace grows by
    one or two requests for the encoded key. *)
Lemma read_smc_frame (key : string) (w : World K) :
  conn (snd (read_smc io key w)) = conn w /\
  exists reqs,
    trace (snd (read_smc io key w)) = trace w ++ reqs /\
    reqs <> [] /\ Forall (for_key key) reqs.
Proof.
  destruct (call_smc_spec (info_request key) SMCParamStruct_zero w)
    as (r1 & out1 & k1 & E1 & _).
  destruct (call_failed r1 out1) eqn:F1.
  - rewrite (read_smc_phase1 key _ _ _ _ E1 F1). cbn [snd conn trace].
    split; [reflexivity|].
    exists [info_request key]. repeat split; [discriminate|].
    repeat constructor.
  - set (w1 := mkWorld (conn w) k1 (trace w ++ [info_request key])) in *.
    destruct (call_smc_spec
                (read_request key (ki_dataSize (ps_keyInfo out1))) out1 w1)
      as (r2 & out2 & k2 & E2 & _).
    rewrite (read_smc_phase2 key _ _ _ _ _ _ _ E1 F1 E2).
    cbn [snd conn trace w1]. split; [reflexivity|].
    exists [info_request key; read_request key (ki_dataSize (ps_keyInfo out1))].
    split; [now rewrite <- app_assoc|].
    split; [discriminate|]. repeat constructor.
Qed.

(** The frame of [write_smc]. *)
Lemma write_smc_frame (key : string) (rs : smc_return_t) (w : World K) :
  conn (snd (write_smc io key rs w)) = conn w /\
  exists reqs,
    trace (snd (write_smc io key rs w)) = trace w ++ reqs /\
    reqs <> [] /\ Forall (for_key key) reqs.
Proof.
  destruct (call_smc_spec (info_request key) SMCParamStruct_zero w)
    as (r1 & out1 & k1 & E1 & _).
  destruct (call_failed r1 out1) eqn:F1.
  - rewrite (write_smc_phase1 key rs _ _ _ _ E1 F1). cbn [snd conn trace].
    split; [reflexivity|].
    exists [info_request key]. repeat split; [discriminate|].
    repeat constructor.
  - destruct (contract_differs rs out1) eqn:D.
    + rewrite (write_smc_mismatch key rs _ _ _ _ E1 F1 D).
      cbn [snd conn trace]. split; [reflexivity|].
      exists [info_request key]. repeat split; [discriminate|].
      repeat constructor.
    + set (w1 := mkWorld (conn w) k1 (trace w ++ [info_request key])) in *.
      destruct (call_smc_spec
                  (write_request key (ki_dataSize (ps_keyInfo out1))
                                 (ret_data rs)) out1 w1)
        as (r2 & out2 & k2 & E2 & _).
      rewrite (write_smc_phase2 key rs _ _ _ _ _ _ _ E1 F1 D E2).
      cbn [snd conn trace w1]. split; [reflexivity|].
      exists [info_request key;
              write_request key (ki_dataSize (ps_keyInfo out1)) (ret_data rs)].
      split; [now rewrite <- app_assoc|].
      split; [discriminate|]. repeat constructor.
Qed.

(** Transactions reach the driver through [IOConnectCallStructMethod] alone. *)
Lemma transactions_ext (io' : IOKit K) :
  IOConnectCallStructMethod io' = IOConnectCallStructMethod io ->
  (forall key, read_smc io' key = read_smc io key) /\
  (forall key rs, write_smc io' key rs = write_smc io key rs).
Proof.
  intros H. split; intros; unfold read_smc, write_smc, call_smc;
    rewrite H; reflexivity.
Qed.

(** C2: when the first call of [write_smc] succeeds and the size or type it
    reports differs from the one the caller declared, [write_smc] returns
    [kIOReturnBadArgument] (the type mismatch) and the only request issued
    is the key-info one: no write request reaches the driver. *)
Theorem write_smc_type_mismatch
        (key : string) (rs : smc_return_t) (w w1 : World K) out1 :
  call_smc io (info_request key) SMCParamStruct_zero w
    = ((kIOReturnSuccess, out1), w1) ->
  ps_result out1 = kSMCSuccess ->
  ret_dataSize rs <> ki_dataSize (ps_keyInfo out1)
  \/ ret_dataType rs <> ki_dataType (ps_keyInfo out1) ->
  write_smc io key rs w
    = ((kIOReturnBadArgument, set_ret_kSMC rs kSMCSuccess), w1) /\
  outcome kIOReturnBadArgument kSMCSuccess = Some TypeMismatch /\
  issued (write_smc io key rs) w = [info_request key] /\
  ps_data8 (info_request key) = kSMCGetKeyInfo.
Proof.
  intros E1 S1 Hd.
  assert (F1 : call_failed kIOReturnSuccess out1 = false)
    by now apply call_failed_false.
  assert (D : contract_differs rs out1 = true).
  { unfold contract_differs.
    destruct Hd as [H | H]; apply Z.eqb_neq in H; rewrite H; cbn;
      [reflexivity | apply orb_true_r]. }
  pose proof (write_smc_mismatch key rs _ _ _ _ E1 F1 D) as E.
  rewrite S1 in E. split; [exact E|].
  split; [reflexivity|]. split; [|reflexivity].
  apply issued_of_trace. rewrite E. cbn [snd].
  now destruct (call_smc_inv _ _ _ _ _ _ E1) as (_ & T & _).
Qed.

(** C3: when the first call of [read_smc] does not succeed (the I/O Kit code
    or the SMC result byte is not success), [read_smc] returns that code and
    that result byte, a pair that reads as key-not-found or channel error,
    and the only request issued is the key-info one: no read request. *)
Theorem read_smc_phase1_failure
        (key : string) (w w1 : World K) r1 out1 :
  call_smc io (info_request key) SMCParamStruct_zero w = ((r1, out1), w1) ->
  r1 <> kIOReturnSuccess \/ ps_result out1 <> kSMCSuccess ->
  read_smc io key w
    = ((r1, set_ret_kSMC smc_return_zero (ps_result out1)), w1) /\
  (outcome r1 (ps_result out1) = Some KeyNotFound
   \/ outcome r1 (ps_result out1) = Some ChannelError) /\
  issued (read_smc io key) w = [info_request key] /\
  ps_data8 (info_request key) = kSMCGetKeyInfo.
Proof.
  intros E1 Hf.
  pose proof (call_failed_true _ _ Hf) as F1.
  pose proof (read_smc_phase1 key _ _ _ _ E1 F1) as E.
  destruct (call_smc_inv _ _ _ _ _ _ E1) as (_ & T & Hr).
  split; [exact E|]. split; [|split; [|reflexivity]].
  - unfold outcome. rewrite (call_smc_not_bad_argument r1 Hr).
    destruct (Z.eqb_spec r1 kIOReturnSuccess) as [-> | ?]; cbn [negb];
      [|now right].
    destruct Hf as [Hf | Hf]; [contradiction|].
    apply Z.eqb_neq in Hf. rewrite Hf.
    destruct (ps_result out1 =? kSMCKeyNotFound); [now left | now right].
  - apply issued_of_trace. rewrite E. exact T.
Qed.

(** C9: a transaction, whatever its outcome, leaves the connection as it
    was, and it goes through [IOConnectCallStructMethod] only: it behaves the
    same whatever the open, close, lookup and release entry points are, so
    it neither closes nor reopens the connection. *)
Theorem transactions_keep_connection
        (key : string) (rs : smc_return_t) (w : World K) :
  conn (snd (read_smc io key w)) = conn w /\
  conn (snd (write_smc io key rs w)) = conn w /\
  (forall io' : IOKit K,
      IOConnectCallStructMethod io' = IOConnectCallStructMethod io ->
      read_smc io' key w = read_smc io key w /\
      write_smc io' key rs w = write_smc io key rs w).
Proof.
  split; [apply read_smc_frame|]. split; [apply write_smc_frame|].
  intros io' H. destruct (transactions_ext io' H) as [Hr Hw].
  now rewrite Hr, Hw.
Qed.

End Transactions.

(** ** Arrays *)






(** ** Facade *)

Section Facade.

Context {K : Type} (io : IOKit K).

Lemma accepted_false (r : Z) (rs : smc_return_t) (size type : Z) :
  r <> kIOReturnSuccess \/ ret_dataSize rs <> size \/ ret_dataType rs <> type ->
  accepted r rs size type = false.
Proof.
  unfold accepted. intros [H | [H | H]]; apply Z.eqb_neq in H; rewrite H;
    rewrite ?andb_false_r; reflexivity.
Qed.

Lemma accepted_true (r : Z) (rs : smc_return_t) (size type : Z) :
  r = kIOReturnSuccess -> ret_dataSize rs = size -> ret_dataType rs = type ->
  accepted r rs size type = true.
Proof. unfold accepted. intros -> -> ->. now rewrite !Z.eqb_refl. Qed.

(** A successful exchange, as [read_smc] reports it. *)
Lemma read_smc_success (key : string) (w w2 : World K)
      (size type : Z) (bytes : list Z) :
  answers io key w size type bytes w2 ->
  0 <= size < 2 ^ 32 ->
  read_smc io key w
  = ((kIOReturnSuccess, mk_smc_return_t bytes type size kSMCSuccess), w2).
Proof.
  intros (out1 & w1 & out2 & E1 & S1 & Hs & Ht & E2 & S2 & Hb) Hsize.
  assert (F1 : call_failed kIOReturnSuccess out1 = false)
    by now apply call_failed_false.
  assert (F2 : call_failed kIOReturnSuccess out2 = false)
    by now apply call_failed_false.
  rewrite <- Hs in E2.
  rewrite (read_smc_phase2 io key _ _ _ _ _ _ _ E1 F1 E2). rewrite F2.
  unfold after_info, set_ret_data, set_ret_kSMC, set_ret_dataType,
    set_ret_dataSize. cbn [ret_data ret_dataType ret_dataSize ret_kSMC].
  rewrite Hs, Ht, Hb, S2. now rewrite u32_small.
Qed.


(** Each reading function returns its sentinel when the code of [read_smc]
    is not success or the size or type is not the expected one. *)
Lemma get_tmp_sentinel (key : string) (unit : tmp_unit_t)
      (w w' : World K) r rs :
  read_smc io key w = ((r, rs), w') ->
  r <> kIOReturnSuccess \/ ret_dataSize rs <> 2
  \/ ret_dataType rs <> to_uint32_t DATA_TYPE_SP78 ->
  get_tmp io key unit w = (0%float, w').
Proof.
  intros E H. unfold get_tmp, bind, ret. rewrite E.
  fold (accepted r rs 2 (to_uint32_t DATA_TYPE_SP78)).
  now rewrite (accepted_false _ _ _ _ H).
Qed.

Lemma is_battery_powered_sentinel (w w' : World K) r rs :
  read_smc io BATT_PWR w = ((r, rs), w') ->
  r <> kIOReturnSuccess \/ ret_dataSize rs <> 1
  \/ ret_dataType rs <> to_uint32_t DATA_TYPE_FLAG ->
  is_battery_powered io w = (false, w').
Proof.
  intros E H. unfold is_battery_powered, bind, ret. rewrite E.
  fold (accepted r rs 1 (to_uint32_t DATA_TYPE_FLAG)).
  now rewrite (accepted_false _ _ _ _ H).
Qed.

Lemma get_num_fans_sentinel (w w' : World K) r rs :
  read_smc io NUM_FANS w = ((r, rs), w') ->
  r <> kIOReturnSuccess \/ ret_dataSize rs <> 1
  \/ ret_dataType rs <> to_uint32_t DATA_TYPE_UINT8 ->
  get_num_fans io w = (-1, w').
Proof.
  intros E H. unfold get_num_fans, bind, ret. rewrite E.
  fold (accepted r rs 1 (to_uint32_t DATA_TYPE_UINT8)).
  now rewrite (accepted_false _ _ _ _ H).
Qed.

Lemma get_fan_rpm_sentinel (fan_num : Z) (w w' : World K) r rs :
  read_smc io (sprintf_fan_key "Ac" fan_num) w = ((r, rs), w') ->
  r <> kIOReturnSuccess \/ ret_dataSize rs <> 2
  \/ ret_dataType rs <> to_uint32_t DATA_TYPE_FPE2 ->
  get_fan_rpm io fan_num w = (0, w').
Proof.
  intros E H. unfold get_fan_rpm, bind, ret. rewrite E.
  fold (accepted r rs 2 (to_uint32_t DATA_TYPE_FPE2)).
  now rewrite (accepted_false _ _ _ _ H).
Qed.

(** [get_fan_rpm] on an accepted read decodes the payload. *)
Lemma get_fan_rpm_success (fan_num : Z) (w w2 : World K) (bytes : list Z) :
  answers io (sprintf_fan_key "Ac" fan_num) w 2
          (to_uint32_t DATA_TYPE_FPE2) bytes w2 ->
  get_fan_rpm io fan_num w = (from_fpe2 bytes, w2).
Proof.
  intros A. unfold get_fan_rpm, bind, ret.
  rewrite (read_smc_success _ _ _ _ _ _ A) by (cbn; lia).
  reflexivity.
Qed.

(** C5: with the channel open and fan 0's actual-speed key answered by
    (size 2, type fpe2) and the two bytes that encode 1200, [get_fan_rpm 0]
    returns 1920 and not 1200: the bytes are 18 and 192, and the decoder
    adds [192 << 2] where the encoding calls for [192 >> 2]. *)
Theorem get_fan_rpm_of_encoded_1200 (w0 w w2 : World K) :
  open_smc io w0 = (kIOReturnSuccess, w) ->
  answers io (sprintf_fan_key "Ac" 0) w 2 (to_uint32_t DATA_TYPE_FPE2)
          (to_fpe2 1200 (zeros 32)) w2 ->
  (_ <- open_smc io ;; get_fan_rpm io 0) w0 = (1920, w2) /\
  to_fpe2 1200 (zeros 32) = 18 :: 192 :: zeros 30.
Proof.
  intros Ho A. split; [|reflexivity].
  unfold bind at 1. rewrite Ho.
  now rewrite (get_fan_rpm_success 0 _ _ _ A).
Qed.


(** C8: on an accepted read (size 2, type sp78) [get_tmp] returns the first
    payload byte, taken as degrees Celsius, under the conversion of the
    requested unit: unchanged, [c * 1.8 + 32], or [c + 273.15]; the
    conversion touches no state.  With a first byte of 25 and Fahrenheit
    the value is 77.0. *)
Theorem get_tmp_conversion
        (key : string) (unit : tmp_unit_t) (bytes : list Z) (w w2 : World K) :
  answers io key w 2 (to_uint32_t DATA_TYPE_SP78) bytes w2 ->
  get_tmp io key unit w
  = (convert_tmp unit (double_of_byte (byte_at bytes 0)), w2) /\
  to_fahrenheit = convert_tmp FAHRENHEIT /\
  to_kelvin = convert_tmp KELVIN /\
  (byte_at bytes 0 = 25 -> get_tmp io key FAHRENHEIT w = (77%float, w2)).
Proof.
  intros A.
  assert (E : forall u, get_tmp io key u w
                        = (convert_tmp u (double_of_byte (byte_at bytes 0)), w2)).
  { intros u. unfold get_tmp, bind, ret.
    rewrite (read_smc_success _ _ _ _ _ _ A) by (cbn; lia).
    cbn [ret_dataSize ret_dataType ret_data].
    rewrite !Z.eqb_refl. cbn [andb negb].
    now destruct u. }
  split; [apply E|]. split; [reflexivity|]. split; [reflexivity|].
  intros H25. rewrite E, H25. reflexivity.
Qed.

(** When the read call comes back with the I/O Kit code of success and an
    SMC result byte other than success, [read_smc] still returns success,
    with the size and type of the first call and a cleared payload.
    [get_num_fans] lets that pass and returns the cleared byte. *)
Lemma get_num_fans_after_failed_read (w w1 w2 : World K) out1 out2 :
  call_smc io (info_request NUM_FANS) SMCParamStruct_zero w
    = ((kIOReturnSuccess, out1), w1) ->
  ps_result out1 = kSMCSuccess ->
  ki_dataSize (ps_keyInfo out1) = 1 ->
  ki_dataType (ps_keyInfo out1) = to_uint32_t DATA_TYPE_UINT8 ->
  call_smc io (read_request NUM_FANS 1) out1 w1
    = ((kIOReturnSuccess, out2), w2) ->
  ps_result out2 <> kSMCSuccess ->
  get_num_fans io w = (0, w2) /\
  outcome (fst (fst (read_smc io NUM_FANS w)))
          (ret_kSMC (snd (fst (read_smc io NUM_FANS w)))) <> None.
Proof.
  intros E1 S1 Hs Ht E2 S2.
  assert (F1 : call_failed kIOReturnSuccess out1 = false)
    by now apply call_failed_false.
  assert (F2 : call_failed kIOReturnSuccess out2 = true)
    by (apply call_failed_true; now right).
  rewrite <- Hs in E2.
  pose proof (read_smc_phase2 io NUM_FANS _ _ _ _ _ _ _ E1 F1 E2) as E.
  rewrite F2 in E. split.
  - unfold get_num_fans, bind, ret. rewrite E.
    unfold after_info.
    cbn [ret_dataSize ret_dataType ret_data set_ret_kSMC set_ret_dataType
         set_ret_dataSize smc_return_zero].
    rewrite Hs, Ht. reflexivity.
  - rewrite E. cbn [fst snd ret_kSMC set_ret_kSMC]. unfold outcome.
    apply Z.eqb_neq in S2. cbn. rewrite S2.
    now destruct (ps_result out2 =? kSMCKeyNotFound).
Qed.

End Facade.


(** ** The scripted driver at work *)

(** C6: the sentinel is missed when the read call itself reports an SMC
    error.  The driver answers the key-info call with success and the read
    call with I/O Kit success and result byte [kSMCError]; the transaction
    failed, yet [get_num_fans] returns 0 where its sentinel is -1, and
    [get_tmp] returns 32.0 in Fahrenheit and 273.15 in Kelvin where its
    sentinel is 0.0. *)
Theorem sentinel_missed_on_read_error :
  let fans := Mock.opened [Mock.key_info 1 DATA_TYPE_UINT8;
                           Mock.smc_status kSMCError] in
  let temp := Mock.opened [Mock.key_info 2 DATA_TYPE_SP78;
                           Mock.smc_status kSMCError] in
  outcome (fst (fst (read_smc Mock.driver NUM_FANS fans)))
          (ret_kSMC (snd (fst (read_smc Mock.driver NUM_FANS fans))))
  = Some ChannelError /\
  fst (get_num_fans Mock.driver fans) = 0 /\
  fst (get_tmp Mock.driver "TC0P" FAHRENHEIT temp) = 32%float /\
  fst (get_tmp Mock.driver "TC0P" KELVIN temp) = 273.15%float /\
  fst (get_tmp Mock.driver "TC0P" CELSIUS temp) = 0%float.
Proof. cbv zeta. repeat split; vm_compute; reflexivity. Qed.

Lemma write_smc_type_mismatch_witness :
  let declared := set_ret_dataType (set_ret_dataSize smc_return_zero 1)
                                   (to_uint32_t DATA_TYPE_FLAG) in
  let w := Mock.opened [Mock.key_info 2 DATA_TYPE_FLAG; Mock.payload []] in
  fst (fst (write_smc Mock.driver ODD_FULL declared w)) = kIOReturnBadArgument /\
  issued (write_smc Mock.driver ODD_FULL declared) w = [info_request ODD_FULL].
Proof.
  intros declared w.
  pose (first := call_smc Mock.driver (info_request ODD_FULL)
                          SMCParamStruct_zero w).
  assert (E1 : first = ((kIOReturnSuccess, snd (fst first)), snd first))
    by (vm_compute; reflexivity).
  assert (S1 : ps_result (snd (fst first)) = kSMCSuccess)
    by (vm_compute; reflexivity).
  assert (D : ret_dataSize declared <> ki_dataSize (ps_keyInfo (snd (fst first)))
              \/ ret_dataType declared
                 <> ki_dataType (ps_keyInfo (snd (fst first))))
    by (left; vm_compute; discriminate).
  destruct (write_smc_type_mismatch Mock.driver ODD_FULL declared w _ _ E1 S1 D)
    as (E & _ & I & _).
  split; [now rewrite E | exact I].
Defined.

Lemma read_smc_phase1_failure_witness :
  let w := Mock.opened [Mock.smc_status kSMCKeyNotFound; Mock.payload [1]] in
  outcome (fst (fst (read_smc Mock.driver BATT_PWR w)))
          (ret_kSMC (snd (fst (read_smc Mock.driver BATT_PWR w))))
  = Some KeyNotFound /\
  issued (read_smc Mock.driver BATT_PWR) w = [info_request BATT_PWR].
Proof.
  intros w.
  pose (first := call_smc Mock.driver (info_request BATT_PWR)
                          SMCParamStruct_zero w).
  assert (E1 : first = ((fst (fst first), snd (fst first)), snd first))
    by (vm_compute; reflexivity).
  assert (F : fst (fst first) <> kIOReturnSuccess
              \/ ps_result (snd (fst first)) <> kSMCSuccess)
    by (right; vm_compute; discriminate).
  destruct (read_smc_phase1_failure Mock.driver BATT_PWR w _ _ _ E1 F)
    as (E & _ & I & _).
  split; [rewrite E; vm_compute; reflexivity | exact I].
Defined.

Lemma transactions_keep_connection_witness :
  let w := Mock.opened [Mock.key_info 1 DATA_TYPE_FLAG; Mock.payload [1]] in
  let closing :=
    mkIOKit Mock.script
            (fun k _ => (0, k)) (fun k _ _ c => (kIOReturnError, c, k))
            (fun k _ => (kIOReturnError, []))
            (fun k _ => k) (IOConnectCallStructMethod Mock.driver) in
  conn (snd (read_smc Mock.driver BATT_PWR w)) = 0x1003 /\
  read_smc closing BATT_PWR w = read_smc Mock.driver BATT_PWR w.
Proof.
  intros w closing.
  destruct (transactions_keep_connection Mock.driver BATT_PWR smc_return_zero w)
    as (Hc & _ & Hx).
  split; [rewrite Hc; vm_compute; reflexivity|].
  exact (proj1 (Hx closing eq_refl)).
Defined.

Lemma get_fan_rpm_of_encoded_1200_witness :
  let script := [Mock.key_info 2 DATA_TYPE_FPE2;
                 Mock.payload (to_fpe2 1200 (zeros 2))] in
  fst ((_ <- open_smc Mock.driver ;; get_fan_rpm Mock.driver 0)
         (Mock.boot script)) = 1920.
Proof.
  intros script.
  assert (A : answers Mock.driver (sprintf_fan_key "Ac" 0) (Mock.opened script)
                      2 (to_uint32_t DATA_TYPE_FPE2) (to_fpe2 1200 (zeros 32))
                      (snd (get_fan_rpm Mock.driver 0 (Mock.opened script))))
    by run_script (sprintf_fan_key "Ac" 0) 2 (Mock.opened script).
  assert (O : open_smc Mock.driver (Mock.boot script)
              = (kIOReturnSuccess, Mock.opened script))
    by (vm_compute; reflexivity).
  destruct (get_fan_rpm_of_encoded_1200 Mock.driver _ _ _ O A) as [E _].
  now rewrite E.
Defined.


Lemma get_tmp_conversion_witness :
  let script := [Mock.key_info 2 DATA_TYPE_SP78; Mock.payload [25; 0]] in
  fst (get_tmp Mock.driver "TC0P" FAHRENHEIT (Mock.opened script)) = 77%float /\
  fst (get_tmp Mock.driver "TC0P" KELVIN (Mock.opened script))
  = (25 + 273.15)%float.
Proof.
  intros script.
  assert (A : answers Mock.driver "TC0P" (Mock.opened script)
                      2 (to_uint32_t DATA_TYPE_SP78) ([25; 0] ++ zeros 30)
                      (snd (read_smc Mock.driver "TC0P" (Mock.opened script))))
    by run_script "TC0P"%string 2 (Mock.opened script).
  split.
  - destruct (get_tmp_conversion Mock.driver "TC0P" FAHRENHEIT _ _ _ A)
      as (_ & _ & _ & H).
    now rewrite (H eq_refl).
  - destruct (get_tmp_conversion Mock.driver "TC0P" KELVIN _ _ _ A)
      as (E & _).
    rewrite E. vm_compute. reflexivity.
Defined.



(** ** More on the transaction engine *)

Section TransactionCases.

Context {K : Type} (io : IOKit K).

Lemma call_failed_false_inv (r : Z) (out : SMCParamStruct) :
  call_failed r out = false ->
  r = kIOReturnSuccess /\ ps_result out = kSMCSuccess.
Proof.
  unfold call_failed. intros H. apply orb_false_iff in H. destruct H as [H1 H2].
  apply negb_false_iff in H1, H2. split; now apply Z.eqb_eq.
Qed.

(** The two ways through [read_smc]. *)
Lemma read_smc_cases (key : string) (w : World K) :
  exists r1 out1 w1,
    call_smc io (info_request key) SMCParamStruct_zero w = ((r1, out1), w1) /\
    conn w1 = conn w /\
    ((call_failed r1 out1 = true /\
      read_smc io key w
      = ((r1, set_ret_kSMC smc_return_zero (ps_result out1)), w1) /\
      trace w1 = trace w ++ [info_request key])
     \/
     (call_failed r1 out1 = false /\
      exists r2 out2 w2,
        call_smc io (read_request key (ki_dataSize (ps_keyInfo out1))) out1 w1
        = ((r2, out2), w2) /\
        conn w2 = conn w /\
        read_smc io key w
        = ((r2,
            if call_failed r2 out2
            then set_ret_kSMC (after_info out1) (ps_result out2)
            else set_ret_data (set_ret_kSMC (after_info out1) (ps_result out2))
                              (ps_bytes out2)),
           w2) /\
        trace w2
        = trace w ++ [info_request key;
                      read_request key (ki_dataSize (ps_keyInfo out1))])).
Proof.
  destruct (call_smc_spec io (info_request key) SMCParamStruct_zero w)
    as (r1 & out1 & k1 & E1 & _).
  eexists r1, out1, _. split; [exact E1|]. split; [reflexivity|].
  destruct (call_failed r1 out1) eqn:F1.
  - left. split; [reflexivity|]. split; [|reflexivity].
    exact (read_smc_phase1 io key _ _ _ _ E1 F1).
  - right. split; [reflexivity|].
    set (w1 := mkWorld (conn w) k1 (trace w ++ [info_request key])) in *.
    destruct (call_smc_spec io
                (read_request key (ki_dataSize (ps_keyInfo out1))) out1 w1)
      as (r2 & out2 & k2 & E2 & _).
    eexists r2, out2, _. split; [exact E2|]. split; [reflexivity|].
    split; [exact (read_smc_phase2 io key _ _ _ _ _ _ _ E1 F1 E2)|].
    cbn [trace w1]. now rewrite <- app_assoc.
Qed.

(** The three ways through [write_smc]. *)
Lemma write_smc_cases (key : string) (rs : smc_return_t) (w : World K) :
  exists r1 out1 w1,
    call_smc io (info_request key) SMCParamStruct_zero w = ((r1, out1), w1) /\
    0 <= r1 <= 0x3fff /\
    ((call_failed r1 out1 = true /\
      write_smc io key rs w = ((r1, set_ret_kSMC rs (ps_result out1)), w1) /\
      trace w1 = trace w ++ [info_request key])
     \/
     (call_failed r1 out1 = false /\ contract_differs rs out1 = true /\
      write_smc io key rs w
      = ((kIOReturnBadArgument, set_ret_kSMC rs (ps_result out1)), w1) /\
      trace w1 = trace w ++ [info_request key])
     \/
     (call_failed r1 out1 = false /\ contract_differs rs out1 = false /\
      exists r2 out2 w2,
        call_smc io (write_request key (ki_dataSize (ps_keyInfo out1))
                                   (ret_data rs)) out1 w1
        = ((r2, out2), w2) /\
        0 <= r2 <= 0x3fff /\
        write_smc io key rs w = ((r2, set_ret_kSMC rs (ps_result out2)), w2) /\
        trace w2
        = trace w ++ [info_request key;
                      write_request key (ki_dataSize (ps_keyInfo out1))
                                    (ret_data rs)])).
Proof.
  destruct (call_smc_spec io (info_request key) SMCParamStruct_zero w)
    as (r1 & out1 & k1 & E1 & R1).
  eexists r1, out1, _. split; [exact E1|]. split; [exact R1|].
  destruct (call_failed r1 out1) eqn:F1.
  - left. split; [reflexivity|]. split; [|reflexivity].
    exact (write_smc_phase1 io key rs _ _ _ _ E1 F1).
  - right. destruct (contract_differs rs out1) eqn:D.
    + left. split; [reflexivity|]. split; [reflexivity|].
      split; [|reflexivity].
      exact (write_smc_mismatch io key rs _ _ _ _ E1 F1 D).
    + right. split; [reflexivity|]. split; [reflexivity|].
      set (w1 := mkWorld (conn w) k1 (trace w ++ [info_request key])) in *.
      destruct (call_smc_spec io
                  (write_request key (ki_dataSize (ps_keyInfo out1))
                                 (ret_data rs)) out1 w1)
        as (r2 & out2 & k2 & E2 & R2).
      eexists r2, out2, _. split; [exact E2|]. split; [exact R2|].
      split; [exact (write_smc_phase2 io key rs _ _ _ _ _ _ _ E1 F1 D E2)|].
      cbn [trace w1]. now rewrite <- app_assoc.
Qed.

Lemma contract_differs_false_inv (rs : smc_return_t) (out : SMCParamStruct) :
  contract_differs rs out = false ->
  ret_dataSize rs = ki_dataSize (ps_keyInfo out) /\
  ret_dataType rs = ki_dataType (ps_keyInfo out).
Proof.
  unfold contract_differs. intros H. apply orb_false_iff in H.
  destruct H as [H1 H2]. apply negb_false_iff in H1, H2.
  split; now apply Z.eqb_eq.
Qed.

Lemma contract_differs_false (rs : smc_return_t) (out : SMCParamStruct) :
  ret_dataSize rs = ki_dataSize (ps_keyInfo out) ->
  ret_dataType rs = ki_dataType (ps_keyInfo out) ->
  contract_differs rs out = false.
Proof. unfold contract_differs. intros -> ->. now rewrite !Z.eqb_refl. Qed.

(** What [read_smc] returns when the driver answers both calls. *)
Lemma read_smc_answers (key : string) (w w2 : World K)
      (size type : Z) (bytes : list Z) :
  answers io key w size type bytes w2 ->
  read_smc io key w
  = ((kIOReturnSuccess, mk_smc_return_t bytes type (u32 size) kSMCSuccess), w2).
Proof.
  intros (out1 & w1 & out2 & E1 & S1 & Hs & Ht & E2 & S2 & Hb).
  assert (F1 : call_failed kIOReturnSuccess out1 = false)
    by now apply call_failed_false.
  assert (F2 : call_failed kIOReturnSuccess out2 = false)
    by now apply call_failed_false.
  rewrite <- Hs in E2.
  rewrite (read_smc_phase2 io key _ _ _ _ _ _ _ E1 F1 E2). rewrite F2.
  unfold after_info, set_ret_data, set_ret_kSMC, set_ret_dataType,
    set_ret_dataSize. cbn [ret_data ret_dataType ret_dataSize ret_kSMC].
  now rewrite Hs, Ht, Hb, S2.
Qed.

Lemma read_smc_success_iff_answers (key : string) (w : World K) :
  fst (fst (read_smc io key w)) = kIOReturnSuccess /\
  ret_kSMC (snd (fst (read_smc io key w))) = kSMCSuccess
  <-> exists size type bytes w2, answers io key w size type bytes w2.
Proof.
  split.
  - intros [Hr Hk].
    destruct (read_smc_cases key w)
      as (r1 & out1 & w1 & E1 & _ & [(F1 & E & _) | (F1 & r2 & out2 & w2 & E2 & _ & E & _)]);
      rewrite E in Hr, Hk; cbn [fst snd] in Hr, Hk.
    + cbn [ret_kSMC set_ret_kSMC] in Hk.
      now rewrite (call_failed_false _ _ Hr Hk) in F1.
    + assert (Hk2 : ps_result out2 = kSMCSuccess)
        by (destruct (call_failed r2 out2); exact Hk).
      destruct (call_failed_false_inv _ _ F1) as [-> S1]. subst r2.
      exists (ki_dataSize (ps_keyInfo out1)), (ki_dataType (ps_keyInfo out1)),
        (ps_bytes out2), w2.
      exists out1, w1, out2. repeat split; assumption.
  - intros (size & type & bytes & w2 & A).
    rewrite (read_smc_answers _ _ _ _ _ _ A). now split.
Qed.

(** X1: a read transaction succeeds, in code and in SMC result byte, exactly
    when the driver answers both the key-info and the read call with
    success; it then returns the payload of the read call with the type and
    the size (reduced to 32 bits) of the key-info call. *)
Theorem read_smc_succeeds_iff (key : string) (w : World K) :
  (fst (fst (read_smc io key w)) = kIOReturnSuccess /\
   ret_kSMC (snd (fst (read_smc io key w))) = kSMCSuccess
   <-> exists size type bytes w2, answers io key w size type bytes w2) /\
  (forall size type bytes w2,
      answers io key w size type bytes w2 ->
      read_smc io key w
      = ((kIOReturnSuccess,
          mk_smc_return_t bytes type (u32 size) kSMCSuccess), w2)).
Proof.
  split; [apply read_smc_success_iff_answers|].
  intros; now apply read_smc_answers.
Qed.

(** X2: a transaction that failed hands back no payload: whenever the code
    or the SMC result byte that [read_smc] returns is not success, the data
    of the returned record is the 32 zero bytes it was cleared to. *)
Theorem read_smc_failure_clears_payload (key : string) (w : World K) :
  fst (fst (read_smc io key w)) <> kIOReturnSuccess
  \/ ret_kSMC (snd (fst (read_smc io key w))) <> kSMCSuccess ->
  ret_data (snd (fst (read_smc io key w))) = zeros 32.
Proof.
  intros H.
  destruct (read_smc_cases key w)
    as (r1 & out1 & w1 & E1 & _ & [(F1 & E & _) | (F1 & r2 & out2 & w2 & E2 & _ & E & _)]);
    rewrite E in *; cbn [fst snd] in *; [reflexivity|].
  destruct (call_failed r2 out2) eqn:F2; [reflexivity|].
  destruct (call_failed_false_inv _ _ F2) as [Hr Hs].
  cbn [ret_kSMC set_ret_data set_ret_kSMC] in H. destruct H; contradiction.
Qed.

(** X3: [write_smc] sends a write request exactly when the key-info call
    succeeded with the size and the type the caller declared; the request
    is then the one for the caller's 32 data bytes with that size, and
    nothing else follows the key-info request. *)
Theorem write_smc_writes_iff (key : string) (rs : smc_return_t) (w : World K) :
  ((exists rq, In rq (issued (write_smc io key rs) w)
               /\ ps_data8 rq = kSMCWriteKey)
   <-> exists out1 w1,
        call_smc io (info_request key) SMCParamStruct_zero w
        = ((kIOReturnSuccess, out1), w1) /\
        ps_result out1 = kSMCSuccess /\
        ki_dataSize (ps_keyInfo out1) = ret_dataSize rs /\
        ki_dataType (ps_keyInfo out1) = ret_dataType rs) /\
  (issued (write_smc io key rs) w = [info_request key]
   \/ issued (write_smc io key rs) w
      = [info_request key; write_request key (ret_dataSize rs) (ret_data rs)]).
Proof.
  destruct (write_smc_cases key rs w)
    as (r1 & out1 & w1 & E1 & R1 &
        [(F1 & E & T) | [(F1 & D & E & T) | (F1 & D & r2 & out2 & w2 & E2 & R2 & E & T)]]).
  - assert (I : issued (write_smc io key rs) w = [info_request key])
      by (apply issued_of_trace; now rewrite E).
    rewrite I. split; [|now left]. split.
    + intros (rq & [<- | []] & Hd). discriminate Hd.
    + intros (o & w' & E1' & S1 & _). rewrite E1 in E1'.
      inversion E1'; subst. now rewrite (call_failed_false _ _ eq_refl S1) in F1.
  - assert (I : issued (write_smc io key rs) w = [info_request key])
      by (apply issued_of_trace; now rewrite E).
    rewrite I. split; [|now left]. split.
    + intros (rq & [<- | []] & Hd). discriminate Hd.
    + intros (o & w' & E1' & S1 & Hs & Ht). rewrite E1 in E1'.
      inversion E1'; subst.
      now rewrite (contract_differs_false rs o (eq_sym Hs) (eq_sym Ht)) in D.
  - destruct (contract_differs_false_inv _ _ D) as [Hs Ht].
    destruct (call_failed_false_inv _ _ F1) as [-> S1].
    assert (I : issued (write_smc io key rs) w
                = [info_request key;
                   write_request key (ret_dataSize rs) (ret_data rs)])
      by (apply issued_of_trace; rewrite E, Hs; exact T).
    rewrite I. split; [|now right]. split.
    + intros _. exists out1, w1. repeat split; auto.
    + intros _. eexists. split; [right; left; reflexivity | reflexivity].
Qed.

(** X4: [write_smc] returns [kIOReturnBadArgument] exactly when the key-info
    call succeeded and the size or type it reported is not the declared
    one: no failure of the driver is reported under that code, since
    [call_smc] cuts the driver's error codes to 14 bits. *)
Theorem write_smc_bad_argument_iff
        (key : string) (rs : smc_return_t) (w : World K) :
  fst (fst (write_smc io key rs w)) = kIOReturnBadArgument
  <-> exists out1 w1,
       call_smc io (info_request key) SMCParamStruct_zero w
       = ((kIOReturnSuccess, out1), w1) /\
       ps_result out1 = kSMCSuccess /\
       (ki_dataSize (ps_keyInfo out1) <> ret_dataSize rs
        \/ ki_dataType (ps_keyInfo out1) <> ret_dataType rs).
Proof.
  assert (NB : forall r, 0 <= r <= 0x3fff -> r <> kIOReturnBadArgument).
  { intros r Hr. apply Z.eqb_neq. now apply call_smc_not_bad_argument. }
  destruct (write_smc_cases key rs w)
    as (r1 & out1 & w1 & E1 & R1 &
        [(F1 & E & T) | [(F1 & D & E & T) | (F1 & D & r2 & out2 & w2 & E2 & R2 & E & T)]]);
    rewrite E; cbn [fst].
  - split; [intros H; now apply NB in R1|].
    intros (o & w' & E1' & S1 & _). rewrite E1 in E1'. inversion E1'; subst.
    now rewrite (call_failed_false _ _ eq_refl S1) in F1.
  - split; [|reflexivity]. intros _.
    destruct (call_failed_false_inv _ _ F1) as [-> S1].
    exists out1, w1. split; [exact E1|]. split; [exact S1|].
    unfold contract_differs in D. apply orb_true_iff in D.
    destruct D as [D | D]; apply negb_true_iff, Z.eqb_neq in D;
      [left | right]; congruence.
  - split; [intros H; now apply NB in R2|].
    intros (o & w' & E1' & S1 & Hd). rewrite E1 in E1'. inversion E1'; subst.
    destruct (contract_differs_false_inv _ _ D) as [Hs Ht].
    destruct Hd; congruence.
Qed.

End TransactionCases.

(** ** More on the facade *)

Section FacadeCases.

Context {K : Type} (io : IOKit K).





(** X6: [is_key_valid] turns down a key whose length is not 4 without
    contacting the driver, and for a key of length 4 it answers true
    exactly when the driver answers both calls of the read with success. *)
Theorem is_key_valid_iff (key : string) (w : World K) :
  (strlen key <> 4%nat -> is_key_valid io key w = (false, w)) /\
  (strlen key = 4%nat ->
   (fst (is_key_valid io key w) = true
    <-> exists size type bytes w2, answers io key w size type bytes w2)).
Proof.
  split; intros H; unfold is_key_valid, bind, ret, SMC_KEY_SIZE.
  - apply Nat.eqb_neq in H. now rewrite H.
  - rewrite H. cbn [Nat.eqb negb].
    rewrite <- (read_smc_success_iff_answers io key w).
    destruct (read_smc io key w) as [[r rs] w']. cbn [fst snd].
    destruct (Z.eqb_spec r kIOReturnSuccess) as [-> | Hr];
      destruct (Z.eqb_spec (ret_kSMC rs) kSMCSuccess) as [-> | Hk];
      cbn [andb fst]; split; try easy; intros [? ?]; contradiction.
Qed.

(** [set_fan_min_rpm] in terms of the write it performs. *)
Lemma set_fan_min_rpm_as_write (fan_num rpm : Z) (auth : bool) (w : World K) :
  set_fan_min_rpm io fan_num rpm auth w
  = (let res := write_smc io (sprintf_fan_key "Mn" fan_num)
                          (min_rpm_record rpm) w in
     ((fst (fst res) =? kIOReturnSuccess)
      && (ret_kSMC (snd (fst res)) =? kSMCSuccess), snd res)).
Proof.
  unfold set_fan_min_rpm, bind, ret.
  change (set_ret_data _ _) with (min_rpm_record rpm). cbv zeta.
  destruct (write_smc io (sprintf_fan_key "Mn" fan_num) (min_rpm_record rpm) w)
    as [[r rs] w']. cbn [fst snd].
  now destruct (_ && _).
Qed.

(** X7: for the fans 0 to 9, whose key "F<n>Mn" fits [char key[5]],
    [set_fan_min_rpm] answers true exactly when the driver reports that key
    with size 2 and type "fpe2" and then accepts, in code and in SMC result
    byte, the write request that carries the two bytes of [rpm]; the [auth]
    argument plays no part. *)
Theorem set_fan_min_rpm_true_iff
        (fan_num rpm : Z) (auth : bool) (w : World K) :
  0 <= fan_num <= 9 ->
  let key := sprintf_fan_key "Mn" fan_num in
  sprintf_key "Mn" fan_num = Some key /\
  (fst (set_fan_min_rpm io fan_num rpm auth w) = true
  <-> exists out1 w1 out2 w2,
       call_smc io (info_request key) SMCParamStruct_zero w
       = ((kIOReturnSuccess, out1), w1) /\
       ps_result out1 = kSMCSuccess /\
       ki_dataSize (ps_keyInfo out1) = 2 /\
       ki_dataType (ps_keyInfo out1) = to_uint32_t DATA_TYPE_FPE2 /\
       call_smc io (write_request key 2 (to_fpe2 rpm (zeros 32))) out1 w1
       = ((kIOReturnSuccess, out2), w2) /\
       ps_result out2 = kSMCSuccess).
Proof.
  intros Hfan key.
  split.
  { apply sprintf_key_fits;
      [change (2 ^ 32) with 4294967296; lia
      | right; right; left; reflexivity | lia]. }
  rewrite set_fan_min_rpm_as_write. fold key. cbv zeta.
  cbn [fst]. rewrite andb_true_iff, !Z.eqb_eq.
  destruct (write_smc_cases io key (min_rpm_record rpm) w)
    as (r1 & out1 & w1 & E1 & R1 &
        [(F1 & E & T) | [(F1 & D & E & T) | (F1 & D & r2 & out2 & w2 & E2 & R2 & E & T)]]);
    rewrite E; cbn [fst snd ret_kSMC set_ret_kSMC].
  - split.
    + intros [-> S1]. now rewrite (call_failed_false _ _ eq_refl S1) in F1.
    + intros (o & w' & o2 & w2 & E1' & S1 & _). rewrite E1 in E1'.
      inversion E1'; subst.
      now rewrite (call_failed_false _ _ eq_refl S1) in F1.
  - split; [intros [H _]; discriminate H|].
    intros (o & w' & o2 & w2 & E1' & S1 & Hs & Ht & _). rewrite E1 in E1'.
    inversion E1'; subst.
    rewrite contract_differs_false in D; [discriminate | |];
      cbn [min_rpm_record ret_dataSize ret_dataType]; congruence.
  - destruct (call_failed_false_inv _ _ F1) as [-> S1].
    destruct (contract_differs_false_inv _ _ D) as [Hs Ht].
    cbn [min_rpm_record ret_dataSize ret_dataType ret_data] in Hs, Ht, E2.
    rewrite <- Hs in E2. split.
    + intros [-> S2]. exists out1, w1, out2, w2. repeat split; auto.
    + intros (o & w' & o2 & w2' & E1' & _ & _ & _ & E2' & S2).
      rewrite E1 in E1'. inversion E1'; subst. rewrite E2 in E2'.
      inversion E2'; subst. now split.
Qed.




(** X9: on an accepted read of a one-byte key, [is_battery_powered] and
    [is_optical_disk_drive_full] answer whether the first payload byte is
    not zero, and [get_num_fans] returns that byte. *)
Theorem one_byte_readers (bytes : list Z) (w w2 : World K) :
  (answers io BATT_PWR w 1 (to_uint32_t DATA_TYPE_FLAG) bytes w2 ->
   is_battery_powered io w = (negb (byte_at bytes 0 =? 0), w2)) /\
  (answers io ODD_FULL w 1 (to_uint32_t DATA_TYPE_FLAG) bytes w2 ->
   is_optical_disk_drive_full io w = (negb (byte_at bytes 0 =? 0), w2)) /\
  (answers io NUM_FANS w 1 (to_uint32_t DATA_TYPE_UINT8) bytes w2 ->
   get_num_fans io w = (byte_at bytes 0, w2)).
Proof.
  repeat split; intros A;
    unfold is_battery_powered, is_optical_disk_drive_full, get_num_fans,
      bind, ret;
    rewrite (read_smc_answers io _ _ _ _ _ _ A); reflexivity.
Qed.






End FacadeCases.

(** ** More on the codec *)

(** X13: for every 32-bit [val], [to_fpe2] stores [4 * val], cut to 16 bits,
    as a big-endian pair of bytes in [data[0]], [data[1]] and leaves the
    other bytes alone; values from 16384 on lose their high bits. *)
Theorem to_fpe2_big_endian (val a b : Z) (rest : list Z) :
  0 <= val < 2 ^ 32 ->
  let data := to_fpe2 val (a :: b :: rest) in
  0 <= byte_at data 0 < 256 /\ 0 <= byte_at data 1 < 256 /\
  256 * byte_at data 0 + byte_at data 1 = (4 * val) mod 2 ^ 16 /\
  skipn 2 data = rest.
Proof.
  intros Hv data. subst data. unfold to_fpe2.
  cbn [upd byte_at nth skipn].
  unfold u8. rewrite !lxor_shiftl8_low.
  rewrite !Z.shiftr_div_pow2, !Z.shiftl_mul_pow2 by lia.
  unfold u32.
  rewrite !(Z.mod_mod_divide _ (2 ^ 32) (2 ^ 8))
    by (exists (2 ^ 24); reflexivity).
  change (2 ^ 8) with 256. change (2 ^ 6) with 64. change (2 ^ 2) with 4.
  change (2 ^ 16) with 65536.
  pose proof (Z.mod_pos_bound (val / 64) 256 ltac:(lia)) as B0.
  pose proof (Z.mod_pos_bound (val * 4) 256 ltac:(lia)) as B1.
  split; [exact B0|]. split; [exact B1|]. split; [|reflexivity].
  pose proof (Z.div_mod val 64 ltac:(lia)) as D1.
  pose proof (Z.mod_pos_bound val 64 ltac:(lia)) as R1.
  pose proof (Z.div_mod (val / 64) 256 ltac:(lia)) as D2.
  pose proof (Z.div_mod (val * 4) 256 ltac:(lia)) as D3.
  pose proof (Z.div_mod (4 * val) 65536 ltac:(lia)) as D4.
  pose proof (Z.mod_pos_bound (4 * val) 65536 ltac:(lia)) as R4.
  lia.
Qed.

Lemma to_fpe2_big_endian_witness :
  to_fpe2 20000 (zeros 32) = 56 :: 128 :: zeros 30 /\
  256 * 56 + 128 = (4 * 20000) mod 2 ^ 16.
Proof.
  assert (R : 0 <= 20000 < 2 ^ 32) by (split; [discriminate | reflexivity]).
  destruct (to_fpe2_big_endian 20000 0 0 (zeros 30) R) as (_ & _ & E & _).
  split; [vm_compute; reflexivity | exact E].
Defined.

(** X22: on the encoding of a 14-bit value [v], [from_fpe2] returns the
    high eight bits of [v] in place and its low six bits multiplied by 16,
    [64 * (v / 64) + 16 * (v mod 64)]; the result is [v] again exactly when
    [v] is a multiple of 64, and it is never below [v]. *)
Theorem from_fpe2_on_encoding (v a b : Z) (rest : list Z) :
  0 <= v <= 16383 ->
  from_fpe2 (to_fpe2 v (a :: b :: rest)) = 64 * (v / 64) + 16 * (v mod 64) /\
  (from_fpe2 (to_fpe2 v (a :: b :: rest)) = v <-> v mod 64 = 0) /\
  v <= from_fpe2 (to_fpe2 v (a :: b :: rest)).
Proof.
  intros Hv. rewrite from_fpe2_to_fpe2 by assumption.
  pose proof (Z.div_mod v 64 ltac:(lia)) as E.
  pose proof (Z.mod_pos_bound v 64 ltac:(lia)) as Hr.
  repeat split; lia.
Qed.

Lemma from_fpe2_on_encoding_witness :
  from_fpe2 (to_fpe2 1216 (zeros 32)) = 1216 /\
  from_fpe2 (to_fpe2 1200 (zeros 32)) = 64 * 18 + 16 * 48.
Proof.
  assert (R1 : 0 <= 1216 <= 16383) by (split; discriminate).
  assert (R2 : 0 <= 1200 <= 16383) by (split; discriminate).
  destruct (from_fpe2_on_encoding 1216 0 0 (zeros 30) R1) as (_ & I & _).
  destruct (from_fpe2_on_encoding 1200 0 0 (zeros 30) R2) as (E & _ & _).
  split; [apply (proj2 I); reflexivity | exact E].
Defined.

Lemma byte_of_code (c : ascii) : ascii_of_N (Z.to_N (code c)) = c.
Proof. unfold code. rewrite N2Z.id. apply ascii_N_embedding. Qed.

(** X14: [to_string] undoes [to_uint32_t] on a key of four 7-bit ASCII
    characters: it writes their four codes, in order, over the first four
    bytes of the caller's buffer and leaves the rest of it; read as a C
    string, a buffer with a NUL in fifth place holds the key again. *)
Theorem to_string_to_uint32_t (a b c d : ascii) (x0 x1 x2 x3 : Z) (rest : list Z) :
  is_ascii7 a = true -> is_ascii7 b = true ->
  is_ascii7 c = true -> is_ascii7 d = true ->
  let key := String a (String b (String c (String d EmptyString))) in
  to_string (to_uint32_t key) (x0 :: x1 :: x2 :: x3 :: rest)
  = code a :: code b :: code c :: code d :: rest /\
  c_string (to_string (to_uint32_t key) (x0 :: x1 :: x2 :: x3 :: 0 :: rest))
  = key.
Proof.
  intros Ha Hb Hc Hd key. subst key.
  rewrite (to_uint32_t_big_endian a b c d Ha Hb Hc Hd).
  destruct (char_val_ascii7 a Ha) as [_ Ra].
  destruct (char_val_ascii7 b Hb) as [_ Rb].
  destruct (char_val_ascii7 c Hc) as [_ Rc].
  destruct (char_val_ascii7 d Hd) as [_ Rd].
  set (val := code a * 2 ^ 24 + code b * 2 ^ 16 + code c * 2 ^ 8 + code d).
  assert (E : forall r, to_string val (x0 :: x1 :: x2 :: x3 :: r)
                        = code a :: code b :: code c :: code d :: r).
  { intros r. unfold to_string.
    cbn [DATA_TYPE_SIZE seq fold_left to_string_step upd fst].
    change (24 - 8) with 16. change (16 - 8) with 8. change (8 - 8) with 0.
    change 0xff with (Z.ones 8). rewrite !Z.land_ones by lia.
    rewrite !Z.shiftr_div_pow2 by lia. subst val.
    change (2 ^ 24) with 16777216. change (2 ^ 16) with 65536.
    change (2 ^ 8) with 256. change (2 ^ 0) with 1. rewrite Z.div_1_r.
    assert (Q3 : (code a * 16777216 + code b * 65536 + code c * 256 + code d)
                 / 16777216 = code a)
      by (symmetry;
          apply Z.div_unique with (r := code b * 65536 + code c * 256 + code d);
          lia).
    assert (Q2 : (code a * 16777216 + code b * 65536 + code c * 256 + code d)
                 / 65536 = code a * 256 + code b)
      by (symmetry; apply Z.div_unique with (r := code c * 256 + code d); lia).
    assert (Q1 : (code a * 16777216 + code b * 65536 + code c * 256 + code d)
                 / 256 = code a * 65536 + code b * 256 + code c)
      by (symmetry; apply Z.div_unique with (r := code d); lia).
    rewrite Q3, Q2, Q1.
    assert (M3 : code a mod 256 = code a) by (apply Z.mod_small; lia).
    assert (M2 : (code a * 256 + code b) mod 256 = code b)
      by (symmetry; apply Z.mod_unique with (q := code a); lia).
    assert (M1 : (code a * 65536 + code b * 256 + code c) mod 256 = code c)
      by (symmetry; apply Z.mod_unique with (q := code a * 256 + code b); lia).
    assert (M0 : (code a * 16777216 + code b * 65536 + code c * 256 + code d)
                 mod 256 = code d)
      by (symmetry;
          apply Z.mod_unique
            with (q := code a * 65536 + code b * 256 + code c); lia).
    now rewrite M3, M2, M1, M0. }
  split; [apply E|]. rewrite E. cbn [c_string].
  assert (NZ : forall x, 0 < code x < 128 -> (code x =? 0) = false)
    by (intros x Hx; apply Z.eqb_neq; lia).
  rewrite (NZ a Ra), (NZ b Rb), (NZ c Rc), (NZ d Rd).
  now rewrite !byte_of_code.
Qed.

Lemma to_string_to_uint32_t_witness :
  c_string (to_string (to_uint32_t DATA_TYPE_SP78) (zeros 5)) = DATA_TYPE_SP78.
Proof.
  exact (proj2 (to_string_to_uint32_t "s" "p" "7" "8" 0 0 0 0 []
                  eq_refl eq_refl eq_refl eq_refl)).
Defined.

Lemma fmt_d_digit (n : Z) :
  0 <= n <= 9 -> fmt_d n = String (digit_char n) EmptyString.
Proof.
  intros H. unfold fmt_d.
  rewrite u32_small by (change (2 ^ 32) with 4294967296; lia).
  change (2 ^ 31) with 2147483648.
  destruct (Z.ltb_spec n 2147483648); [|lia].
  destruct (Z.ltb_spec n 0); [lia|].
  now apply digits_from_one.
Qed.

Lemma digit_char_code (n : Z) :
  0 <= n <= 9 -> code (digit_char n) = 48 + n /\ is_ascii7 (digit_char n) = true.
Proof.
  intros H.
  assert (E : N_of_ascii (digit_char n) = Z.to_N (48 + n))
    by (unfold digit_char; apply N_ascii_embedding; lia).
  unfold code, is_ascii7. rewrite E. split; [lia|].
  apply andb_true_iff. split; apply N.ltb_lt; lia.
Qed.

(** The value of a fan key for the fans 0 to 9: 'F', the digit, and the two
    characters of the suffix. *)
Lemma fan_key_value (sfx : string) (n : Z) :
  0 <= n <= 9 -> In sfx fan_key_suffixes ->
  exists low,
    to_uint32_t (sprintf_fan_key sfx n) = 0x46300000 + n * 65536 + low /\
    (sfx = "Ac"%string /\ low = 0x4163
     \/ sfx = "ID"%string /\ low = 0x4944
     \/ sfx = "Mn"%string /\ low = 0x4D6E).
Proof.
  intros Hn Hs. destruct (digit_char_code n Hn) as [Ec Ha].
  unfold sprintf_fan_key. rewrite (fmt_d_digit n Hn).
  destruct Hs as [<- | [<- | [<- | []]]]; cbn [append];
    rewrite to_uint32_t_big_endian by (assumption || reflexivity);
    rewrite Ec; eexists; (split; [|tauto]);
    change (2 ^ 24) with 16777216; change (2 ^ 16) with 65536;
    change (2 ^ 8) with 256;
    repeat match goal with
           | |- context [code ?ch] =>
               let v := eval vm_compute in (code ch) in
               change (code ch) with v
           end; lia.
Qed.

(** X15: the fan keys of the fans 0 to 9 are all different: two of them
    encode to the same 32-bit key only if they name the same fan and the
    same quantity, and none encodes to 0, the value [to_uint32_t] gives a
    text of another length. *)
Theorem fan_keys_distinct (n m : Z) (sfx sfx' : string) :
  0 <= n <= 9 -> 0 <= m <= 9 ->
  In sfx fan_key_suffixes -> In sfx' fan_key_suffixes ->
  to_uint32_t (sprintf_fan_key sfx n) <> 0 /\
  (to_uint32_t (sprintf_fan_key sfx n) = to_uint32_t (sprintf_fan_key sfx' m) ->
   n = m /\ sfx = sfx').
Proof.
  intros Hn Hm Hs Hs'.
  destruct (fan_key_value sfx n Hn Hs) as (low & E & L).
  destruct (fan_key_value sfx' m Hm Hs') as (low' & E' & L').
  rewrite E, E'.
  destruct L as [[-> ->] | [[-> ->] | [-> ->]]];
    destruct L' as [[-> ->] | [[-> ->] | [-> ->]]];
    (split; [lia|]); intros H;
    first [ split; [lia | reflexivity] | exfalso; lia ].
Qed.

Lemma fan_keys_distinct_witness :
  to_uint32_t (sprintf_fan_key "Ac" 0) <> to_uint32_t (sprintf_fan_key "Mn" 0) /\
  to_uint32_t (sprintf_fan_key "Ac" 1) <> to_uint32_t (sprintf_fan_key "Ac" 2).
Proof.
  assert (R0 : 0 <= 0 <= 9) by (split; discriminate).
  assert (R1 : 0 <= 1 <= 9) by (split; discriminate).
  assert (R2 : 0 <= 2 <= 9) by (split; discriminate).
  assert (HAc : In "Ac"%string fan_key_suffixes) by (left; reflexivity).
  assert (HMn : In "Mn"%string fan_key_suffixes)
    by (right; right; left; reflexivity).
  split; intros H.
  - destruct (proj2 (fan_keys_distinct 0 0 "Ac" "Mn" R0 R0 HAc HMn) H)
      as [_ E]. discriminate E.
  - destruct (proj2 (fan_keys_distinct 1 2 "Ac" "Ac" R1 R2 HAc HAc) H)
      as [E _]. discriminate E.
Defined.

(** ** The scripted driver on the further properties *)

Lemma read_smc_succeeds_iff_witness :
  let w := Mock.opened [Mock.key_info 1 DATA_TYPE_FLAG; Mock.payload [1]] in
  fst (fst (read_smc Mock.driver BATT_PWR w)) = kIOReturnSuccess /\
  ret_kSMC (snd (fst (read_smc Mock.driver BATT_PWR w))) = kSMCSuccess.
Proof.
  intros w.
  apply (proj2 (proj1 (read_smc_succeeds_iff Mock.driver BATT_PWR w))).
  exists 1, (to_uint32_t DATA_TYPE_FLAG), ([1] ++ zeros 31),
    (snd (read_smc Mock.driver BATT_PWR w)).
  run_script BATT_PWR 1 w.
Defined.

Lemma read_smc_failure_clears_payload_witness :
  let w := Mock.opened [Mock.key_info 1 DATA_TYPE_UINT8;
                        Mock.smc_status kSMCError] in
  ret_data (snd (fst (read_smc Mock.driver NUM_FANS w))) = zeros 32.
Proof.
  intros w. apply read_smc_failure_clears_payload.
  right. vm_compute. discriminate.
Defined.

Lemma write_smc_writes_iff_witness :
  let w := Mock.opened [Mock.key_info 2 DATA_TYPE_FPE2; Mock.payload []] in
  exists rq,
    In rq (issued (write_smc Mock.driver "F0Mn" (min_rpm_record 1200)) w)
    /\ ps_data8 rq = kSMCWriteKey.
Proof.
  intros w.
  apply (proj2 (proj1 (write_smc_writes_iff Mock.driver "F0Mn"
                         (min_rpm_record 1200) w))).
  pose (first := call_smc Mock.driver (info_request "F0Mn")
                          SMCParamStruct_zero w).
  exists (snd (fst first)), (snd first).
  repeat apply conj; vm_compute; reflexivity.
Defined.

Lemma write_smc_bad_argument_iff_witness :
  let w := Mock.opened [Mock.key_info 2 DATA_TYPE_FLAG; Mock.payload []] in
  fst (fst (write_smc Mock.driver "F0Mn" (min_rpm_record 1200) w))
  = kIOReturnBadArgument.
Proof.
  intros w.
  apply (proj2 (write_smc_bad_argument_iff Mock.driver "F0Mn"
                  (min_rpm_record 1200) w)).
  pose (first := call_smc Mock.driver (info_request "F0Mn")
                          SMCParamStruct_zero w).
  exists (snd (fst first)), (snd first).
  split; [vm_compute; reflexivity|]. split; [vm_compute; reflexivity|].
  right. vm_compute. discriminate.
Defined.

Lemma is_key_valid_iff_witness :
  let w := Mock.opened [Mock.key_info 1 DATA_TYPE_FLAG; Mock.payload [1]] in
  is_key_valid Mock.driver "F10Ac" w = (false, w) /\
  fst (is_key_valid Mock.driver BATT_PWR w) = true.
Proof.
  intros w. split.
  - apply (proj1 (is_key_valid_iff Mock.driver "F10Ac" w)).
    vm_compute. discriminate.
  - apply (proj2 (proj2 (is_key_valid_iff Mock.driver BATT_PWR w) eq_refl)).
    exists 1, (to_uint32_t DATA_TYPE_FLAG), ([1] ++ zeros 31),
      (snd (read_smc Mock.driver BATT_PWR w)).
    run_script BATT_PWR 1 w.
Defined.

Lemma set_fan_min_rpm_true_iff_witness :
  let w := Mock.opened [Mock.key_info 2 DATA_TYPE_FPE2; Mock.payload []] in
  fst (set_fan_min_rpm Mock.driver 0 1200 false w) = true.
Proof.
  intros w.
  assert (R0 : 0 <= 0 <= 9) by (split; discriminate).
  apply (proj2 (proj2 (set_fan_min_rpm_true_iff Mock.driver 0 1200 false w R0))).
  pose (first := call_smc Mock.driver (info_request (sprintf_fan_key "Mn" 0))
                          SMCParamStruct_zero w).
  pose (second := call_smc Mock.driver
                    (write_request (sprintf_fan_key "Mn" 0) 2
                                   (to_fpe2 1200 (zeros 32)))
                    (snd (fst first)) (snd first)).
  exists (snd (fst first)), (snd first), (snd (fst second)), (snd second).
  repeat apply conj; vm_compute; reflexivity.
Defined.


Lemma one_byte_readers_witness :
  get_num_fans Mock.driver
               (Mock.opened [Mock.key_info 1 DATA_TYPE_UINT8; Mock.payload [3]])
  = (3, snd (read_smc Mock.driver NUM_FANS
               (Mock.opened [Mock.key_info 1 DATA_TYPE_UINT8;
                             Mock.payload [3]]))).
Proof.
  set (w := Mock.opened [Mock.key_info 1 DATA_TYPE_UINT8; Mock.payload [3]]).
  destruct (one_byte_readers Mock.driver ([3] ++ zeros 31) w
              (snd (read_smc Mock.driver NUM_FANS w))) as (_ & _ & H).
  apply H. run_script NUM_FANS 1 w.
Defined.




(** * Properties of the go-lxc bindings *)

Module LXCProps.

Import LXC.

(** X16: [VERSION_AT_LEAST(a, b, c)] holds exactly when the version a.b.c is
    at or below the library's version in dictionary order.  So the test
    passes for every version below one that passes: a library that has the
    2.0.4 members also has those of 2.0.1, 2.0.0 and 1.1.0. *)
Theorem VERSION_AT_LEAST_is_dictionary_order (M m u a b c : Z) :
  (VERSION_AT_LEAST M m u a b c = true <-> version_le a b c M m u) /\
  (forall a' b' c',
      version_le a' b' c' a b c ->
      VERSION_AT_LEAST M m u a b c = true ->
      VERSION_AT_LEAST M m u a' b' c' = true) /\
  (VERSION_AT_LEAST M m u 2 0 4 = true ->
   VERSION_AT_LEAST M m u 2 0 1 = true /\
   VERSION_AT_LEAST M m u 2 0 0 = true /\
   VERSION_AT_LEAST M m u 1 1 0 = true).
Proof.
  assert (I : forall x y z,
             VERSION_AT_LEAST M m u x y z = true <-> version_le x y z M m u).
  { intros x y z. unfold VERSION_AT_LEAST, version_le.
    rewrite !Z.gtb_ltb.
    destruct (Z.ltb_spec M x), (Z.eqb_spec x M), (Z.ltb_spec m y),
      (Z.eqb_spec y m), (Z.ltb_spec u z); cbn; split; intros Hv;
      solve [reflexivity | discriminate | lia]. }
  split; [apply I|]. split.
  - intros a' b' c' L H. apply I. apply I in H.
    unfold version_le in *. lia.
  - intros H. apply I in H. rewrite !I. unfold version_le in *. lia.
Qed.

Lemma VERSION_AT_LEAST_is_dictionary_order_witness :
  VERSION_AT_LEAST 2 0 4 2 0 4 = true /\
  VERSION_AT_LEAST 2 0 4 1 1 0 = true /\
  VERSION_AT_LEAST 1 0 8 1 1 0 = false.
Proof.
  destruct (VERSION_AT_LEAST_is_dictionary_order 2 0 4 2 0 4) as (I & _ & G).
  assert (H : VERSION_AT_LEAST 2 0 4 2 0 4 = true).
  { apply I. right. split; [reflexivity|]. right. split; [reflexivity|].
    discriminate. }
  split; [exact H|]. split; [exact (proj2 (proj2 (G H)))|]. reflexivity.
Defined.

Section BindingProps.

Context {K : Type} (c : lxc_container K) (os : libc K).

Lemma get_item_fetch (getter : K -> string -> bool -> Z -> Z * string * K)
      (ev : string -> bool -> Z -> event) :
  fetch_spec os getter ev (get_item os getter ev).
Proof.
  intros key w len junk k1 E. unfold get_item. rewrite E. cbn [state log].
  split; intros H.
  - destruct (Z.leb_spec len 0); [reflexivity | lia].
  - destruct (Z.leb_spec len 0); [lia|].
    destruct (malloc os k1 (len + 1)) as [value k2] eqn:Em.
    destruct (getter k2 key value (len + 1)) as [[r text] k3] eqn:Eg.
    exists value, r, text, k2, k3. split; [reflexivity|]. split; [exact Eg|].
    rewrite <- !app_assoc. cbn [app].
    destruct (r =? len), value; reflexivity.
Qed.

(** X17: [go_lxc_get_config_item], [go_lxc_get_keys] and
    [go_lxc_get_cgroup_item] ask the container for the length first.  With
    a length of 0 or less they return NULL after that single call, before
    any allocation; otherwise they allocate [len + 1] bytes, ask again with
    that buffer and capacity [len + 1], and return the buffer exactly when
    it was allocated and the second answer is [len] again. *)
Theorem go_lxc_getters_fetch :
  fetch_spec os (get_config_item c) EvGetConfigItem
             (go_lxc_get_config_item c os) /\
  fetch_spec os (get_keys c) EvGetKeys (go_lxc_get_keys c os) /\
  fetch_spec os (get_cgroup_item c) EvGetCgroupItem
             (go_lxc_get_cgroup_item c os).
Proof. split; [|split]; apply get_item_fetch. Qed.

Lemma wait_after_retries (pid : Z) (n : nat) (w w' : world K) :
  retries os pid n w w' ->
  forall fuel, wait_for_pid_status os (n + fuel) pid w
               = wait_for_pid_status os fuel pid w'.
Proof.
  induction 1 as [w | n w w' ret status errno k E Hr _ IH]; intros fuel;
    [reflexivity|].
  cbn [Nat.add wait_for_pid_status]. rewrite E.
  destruct Hr as [[-> ->] | [H1 H2]].
  - cbn. apply IH.
  - apply Z.eqb_neq in H1, H2. rewrite H1, H2. cbn [negb]. apply IH.
Qed.

Lemma retries_log (pid : Z) (n : nat) (w w' : world K) :
  retries os pid n w w' -> log w' = log w ++ repeat (EvWaitpid pid) n.
Proof.
  induction 1 as [w | n w w' ret status errno k E Hr _ IH].
  - cbn. now rewrite app_nil_r.
  - rewrite IH. cbn [log repeat]. now rewrite <- app_assoc.
Qed.

(** X18: [wait_for_pid_status] waits through interruptions and through
    other children: after [n] such rounds, a [waitpid] that returns the pid
    makes it return the status stored, and a [waitpid] that fails with an
    errno other than EINTR makes it return -1; [n + 1] calls to [waitpid]
    were made, and any fuel above [n] is enough. *)
Theorem wait_for_pid_status_after_retries
        (pid : Z) (n fuel : nat) (w w' : world K) ret status errno k :
  retries os pid n w w' ->
  waitpid os (state w') pid = (ret, status, errno, k) ->
  (n < fuel)%nat ->
  let final := mk_world k (log w ++ repeat (EvWaitpid pid) (S n)) in
  (ret = pid -> pid <> -1 ->
   wait_for_pid_status os fuel pid w = (Some status, final)) /\
  (ret = -1 -> errno <> EINTR ->
   wait_for_pid_status os fuel pid w = (Some (-1), final)).
Proof.
  intros R E Hf final.
  assert (L : mk_world k (log w' ++ [EvWaitpid pid]) = final).
  { unfold final. rewrite (retries_log pid n w w' R).
    rewrite <- app_assoc. f_equal. f_equal.
    change [EvWaitpid pid] with (repeat (EvWaitpid pid) 1).
    rewrite <- repeat_app. f_equal. lia. }
  replace fuel with (n + S (fuel - S n))%nat by lia.
  rewrite (wait_after_retries pid n w w' R).
  cbn [wait_for_pid_status]. rewrite E, L.
  split.
  - intros -> Hp. apply Z.eqb_neq in Hp. rewrite Hp, Z.eqb_refl. reflexivity.
  - intros -> He. apply Z.eqb_neq in He. rewrite He. reflexivity.
Qed.

Lemma WEXITSTATUS_range (s : Z) : 0 <= WEXITSTATUS s <= 255.
Proof.
  unfold WEXITSTATUS. rewrite Z.shiftr_land.
  change (Z.shiftr 0xff00 8) with (Z.ones 8).
  rewrite Z.land_ones by lia.
  pose proof (Z.mod_pos_bound (Z.shiftr s 8) (2 ^ 8) ltac:(lia)) as H.
  change (2 ^ 8) with 256 in *. lia.
Qed.

Lemma exit_status_decoded (e : Z) :
  0 <= e <= 255 -> WIFEXITED (256 * e) = true /\ WEXITSTATUS (256 * e) = e.
Proof.
  intros He. unfold WIFEXITED, WEXITSTATUS. split.
  - apply Z.eqb_eq. change 0x7f with (Z.ones 7). rewrite Z.land_ones by lia.
    change (2 ^ 7) with 128. replace (256 * e) with (2 * e * 128) by lia.
    apply Z.mod_mul. lia.
  - rewrite Z.shiftr_land. change (Z.shiftr 0xff00 8) with (Z.ones 8).
    rewrite Z.land_ones, Z.shiftr_div_pow2 by lia.
    change (2 ^ 8) with 256. rewrite Z.mul_comm, Z.div_mul by lia.
    apply Z.mod_small. lia.
Qed.

Section Attach.

Variables (dflt : lxc_attach_options_t) (clear_env : bool)
          (namespaces personality uid gid stdinfd stdoutfd stderrfd : Z)
          (initial_cwd : option string)
          (extra_env_vars extra_keep_env : option (list string)).

Let options : lxc_attach_options_t :=
  attach_options_of dflt clear_env namespaces personality uid gid
                    stdinfd stdoutfd stderrfd initial_cwd
                    extra_env_vars extra_keep_env.

Let run_attach (fuel : nat) : world K -> option Z * world K :=
  go_lxc_attach c os fuel dflt clear_env namespaces personality uid gid
                stdinfd stdoutfd stderrfd initial_cwd
                extra_env_vars extra_keep_env.

(** X19: whatever the container and the child do, a result of
    [go_lxc_attach] is -1 or an exit status between 0 and 255; and when the
    container's [attach] fails the function returns -1 at once, without
    waiting for any process. *)
Theorem go_lxc_attach_result (fuel : nat) (w : world K) :
  (forall r, fst (run_attach fuel w) = Some r -> r = -1 \/ 0 <= r <= 255) /\
  (forall ret pid k,
      attach c (state w) options = (ret, pid, k) -> ret < 0 ->
      run_attach fuel w = (Some (-1), mk_world k (log w ++ [EvAttach options]))).
Proof.
  unfold run_attach, go_lxc_attach. fold options. split.
  - intros r. destruct (attach c (state w) options) as [[ret pid] k].
    destruct (ret <? 0); [cbn; intros [= <-]; now left|].
    destruct (wait_for_pid_status _ _ _ _) as [[s|] w']; [|discriminate].
    destruct (s <? 0); [cbn; intros [= <-]; now left|].
    destruct (WIFEXITED s); cbn; intros [= <-]; [right | now left].
    apply WEXITSTATUS_range.
  - intros ret pid k E H. rewrite E.
    destruct (Z.ltb_spec ret 0); [reflexivity | lia].
Qed.

(** X20: when the container's [attach] succeeds and, after [n] rounds of
    interruptions or other children, [waitpid] reports that the attached
    process exited with code [e], [go_lxc_attach] returns [e]; the log
    shows the attach followed by [n + 1] calls to [waitpid]. *)
Theorem go_lxc_attach_exit_code
        (n fuel : nat) (w w' : world K) ret pid k e errno k' :
  attach c (state w) options = (ret, pid, k) ->
  0 <= ret -> pid <> -1 ->
  retries os pid n (mk_world k (log w ++ [EvAttach options])) w' ->
  waitpid os (state w') pid = (pid, 256 * e, errno, k') ->
  0 <= e <= 255 ->
  (n < fuel)%nat ->
  run_attach fuel w
  = (Some e,
     mk_world k' (log w ++ EvAttach options :: repeat (EvWaitpid pid) (S n))).
Proof.
  intros Ea Hret Hpid R Ew He Hf.
  unfold run_attach, go_lxc_attach. fold options. rewrite Ea.
  destruct (Z.ltb_spec ret 0); [lia|].
  destruct (wait_for_pid_status_after_retries pid n fuel _ _ _ _ _ _ R Ew Hf)
    as [Hw _].
  rewrite (Hw eq_refl Hpid). cbn [log].
  destruct (exit_status_decoded e He) as [-> ->].
  destruct (Z.ltb_spec (256 * e) 0); [lia|].
  rewrite <- app_assoc. reflexivity.
Qed.

(** X21: [go_lxc_attach_run_wait] hands back the status the container
    returns, except that a status meaning "exited with code 255" becomes
    -1; so its result never means "exited with code 255". *)
Theorem go_lxc_attach_run_wait_result (argv : list string) (w : world K) :
  let res := fst (go_lxc_attach_run_wait c dflt clear_env namespaces
                    personality uid gid stdinfd stdoutfd stderrfd initial_cwd
                    extra_env_vars extra_keep_env argv w) in
  let ret := fst (attach_run_wait c (state w) options argv) in
  (res = -1 \/ res = ret) /\
  (res = ret <-> ret = -1 \/ ~ (WIFEXITED ret = true /\ WEXITSTATUS ret = 255)) /\
  ~ (WIFEXITED res = true /\ WEXITSTATUS res = 255).
Proof.
  unfold go_lxc_attach_run_wait. fold options.
  destruct (attach_run_wait c (state w) options argv) as [ret k].
  cbn [fst].
  destruct (WIFEXITED ret) eqn:Hx;
    destruct (Z.eqb_spec (WEXITSTATUS ret) 255) as [He | He];
    cbn [andb fst].
  - split; [now left|]. split.
    + split.
      * intros <-. now left.
      * intros [-> | H]; [reflexivity | exfalso; apply H; now split].
    + intros [H _]. discriminate H.
  - split; [now right|]. split.
    + split; [intros _; right; intros [_ H]; contradiction | reflexivity].
    + intros [_ H]. contradiction.
  - split; [now right|]. split.
    + split; [intros _; right; intros [H _]; discriminate | reflexivity].
    + intros [H _]. congruence.
  - split; [now right|]. split.
    + split; [intros _; right; intros [H _]; discriminate | reflexivity].
    + intros [H _]. congruence.
Qed.

End Attach.

End BindingProps.

Lemma go_lxc_getters_fetch_witness :
  fst (go_lxc_get_config_item Fake.container Fake.os "lxc.utsname"
                              (Fake.start []))
  = Some "box01"%string /\
  go_lxc_get_keys Fake.container Fake.os "lxc.none" (Fake.start [])
  = (None, mk_world [] [EvGetKeys "lxc.none" false 0]).
Proof.
  destruct (go_lxc_getters_fetch Fake.container Fake.os) as (G & Gk & _).
  split.
  - destruct (G "lxc.utsname"%string (Fake.start []) 5 EmptyString []
                eq_refl) as [_ H].
    destruct (H ltac:(reflexivity)) as (value & r & text & k2 & k3 & Em & Eg & E).
    rewrite E. vm_compute in Em. inversion Em; subst.
    vm_compute in Eg. inversion Eg; subst. reflexivity.
  - destruct (Gk "lxc.none"%string (Fake.start []) (-1) EmptyString []
                 eq_refl) as [H _].
    apply H. discriminate.
Defined.

Lemma wait_for_pid_status_after_retries_witness :
  fst (wait_for_pid_status Fake.os 5 42
         (Fake.start [(-1, 0, EINTR); (7, 0, 0); (42, 256, 0)]))
  = Some 256 /\
  fst (wait_for_pid_status Fake.os 5 42 (Fake.start [(-1, 0, EINTR)]))
  = Some (-1).
Proof.
  split.
  - assert (R : retries Fake.os 42 2
                  (Fake.start [(-1, 0, EINTR); (7, 0, 0); (42, 256, 0)])
                  (mk_world [(42, 256, 0)] [EvWaitpid 42; EvWaitpid 42])).
    { eapply retries_S; [reflexivity | left; split; reflexivity|].
      eapply retries_S; [reflexivity | right; split; discriminate|].
      apply retries_O. }
    destruct (wait_for_pid_status_after_retries Fake.os 42 2 5 _ _ _ _ _ _
                R eq_refl ltac:(repeat constructor)) as [H _].
    rewrite (H eq_refl ltac:(discriminate)). reflexivity.
  - assert (R : retries Fake.os 42 1 (Fake.start [(-1, 0, EINTR)])
                  (mk_world [] [EvWaitpid 42])).
    { eapply retries_S; [reflexivity | left; split; reflexivity|].
      apply retries_O. }
    destruct (wait_for_pid_status_after_retries Fake.os 42 1 5 _ _ _ _ _ _
                R eq_refl ltac:(repeat constructor)) as [_ H].
    rewrite (H eq_refl ltac:(discriminate)). reflexivity.
Defined.

Lemma go_lxc_attach_result_witness :
  let run := go_lxc_attach Fake.container Fake.os 3 Fake.defaults true
                           0 0 0 0 0 1 2 None None None in
  fst (run (Fake.start [(42, 9, 0)])) = Some (-1) /\
  (-1 = -1 \/ 0 <= -1 <= 255).
Proof.
  intros run.
  assert (E : fst (run (Fake.start [(42, 9, 0)])) = Some (-1)) by reflexivity.
  split; [exact E|].
  exact (proj1 (go_lxc_attach_result Fake.container Fake.os Fake.defaults true
                  0 0 0 0 0 1 2 None None None 3 (Fake.start [(42, 9, 0)]))
               (-1) E).
Defined.

Lemma go_lxc_attach_exit_code_witness :
  fst (go_lxc_attach Fake.container Fake.os 3 Fake.defaults false
                     0 0 0 0 0 1 2 None None None
                     (Fake.start [(-1, 0, EINTR); (42, 768, 0)]))
  = Some 3.
Proof.
  set (opts := attach_options_of Fake.defaults false 0 0 0 0 0 1 2
                                 None None None).
  assert (R : retries Fake.os 42 1
                (mk_world [(-1, 0, EINTR); (42, 768, 0)] [EvAttach opts])
                (mk_world [(42, 768, 0)] [EvAttach opts; EvWaitpid 42])).
  { eapply retries_S; [reflexivity | left; split; reflexivity|].
    apply retries_O. }
  rewrite (go_lxc_attach_exit_code Fake.container Fake.os Fake.defaults false
             0 0 0 0 0 1 2 None None None 1 3
             (Fake.start [(-1, 0, EINTR); (42, 768, 0)]) _ 0 42 _ 3 0 []
             eq_refl ltac:(discriminate) ltac:(discriminate) R eq_refl
             ltac:(split; discriminate) ltac:(repeat constructor)).
  reflexivity.
Defined.

Lemma go_lxc_attach_run_wait_result_witness :
  fst (go_lxc_attach_run_wait Fake.container Fake.defaults false
                              0 0 0 0 0 1 2 None None None
                              ["/bin/true"%string]
                              (Fake.start [(0, 65280, 0)]))
  = -1.
Proof.
  destruct (go_lxc_attach_run_wait_result Fake.container Fake.defaults false
              0 0 0 0 0 1 2 None None None ["/bin/true"%string]
              (Fake.start [(0, 65280, 0)])) as ([H | H] & _ & _).
  - exact H.
  - vm_compute in H. discriminate H.
Defined.

End LXCProps.
